(** * BP terminal gate pricing: the sheet parser and the history reconciler

    A shallow embedding of [process_bp_pricing.py].

    - [parse_bp_pricing] is the forward scan over the rows of the raw sheet
      (the frame returned by [pd.read_excel(..., header=None)]), carrying
      [current_state] and [header_row];
    - [reconcile] is the merge of the persisted history with the freshly
      parsed records ([pd.concat], [drop_duplicates(keep='last')],
      [sort_values]); [df_latest] is the latest-date projection;
    - [main] is the whole run over an explicit directory: file discovery,
      MD5 change detection, the two CSV writes and the token write.

    Python values are modelled as follows.  A cell of the raw frame is
    [Null] (None / NaT), [Text], [Stamp] (a [pd.Timestamp] or [datetime])
    or [Number] (a binary64 float, NaN included).  Strings are sequences of
    characters with code points below 256.  Rows read back from the history
    file and rows produced by the parser are both [PriceRecord]s: the
    effective date is a calendar date and the extraction time a string on
    either side of the merge.  Exceptions are values of [exn] carried by
    the [result] monad.  What the script obtains from libraries
    whose code is not part of the repository (the wall clock, [float()] on
    a string, [str()] on a number or timestamp, MD5, the Excel and CSV
    codecs) is gathered in the record [Host]. *)

From Stdlib Require Import List String Ascii Bool Arith ZArith Lia.
From Stdlib Require Import Sorted Permutation.
From Stdlib Require Import Floats.PrimFloat.
Import ListNotations.

Local Open Scope string_scope.
Local Open Scope list_scope.

Set Implicit Arguments.
Set Warnings "-inexact-float".


(** ** Python strings *)

Module PyStr.

(** [str.isspace] on one character (code points below 256). *)
Definition is_space (c : ascii) : bool :=
  let n := nat_of_ascii c in
  (((9 <=? n) && (n <=? 13)) || ((28 <=? n) && (n <=? 32))
   || (n =? 133) || (n =? 160))%nat.

Fixpoint lstrip (s : string) : string :=
  match s with
  | EmptyString => EmptyString
  | String c t => if is_space c then lstrip t else s
  end.

Fixpoint rstrip (s : string) : string :=
  match s with
  | EmptyString => EmptyString
  | String c t =>
      match rstrip t with
      | EmptyString => if is_space c then EmptyString else String c EmptyString
      | t' => String c t'
      end
  end.

(** [s.strip()] *)
Definition strip (s : string) : string := rstrip (lstrip s).

(** Truth value of a string: non-empty. *)
Definition truthy (s : string) : bool :=
  match s with EmptyString => false | _ => true end.

Fixpoint rev_acc (s acc : string) : string :=
  match s with
  | EmptyString => acc
  | String c t => rev_acc t (String c acc)
  end.

(** [s.endswith(suffix)] *)
Definition endswith (s suffix : string) : bool :=
  String.prefix (rev_acc suffix EmptyString) (rev_acc s EmptyString).

(** [x in l] for a list of strings. *)
Definition mem (x : string) (l : list string) : bool :=
  existsb (String.eqb x) l.

End PyStr.

(** ** Calendar dates and timestamps *)

Record date := mk_date { year : Z; month : Z; day : Z }.

(** A [pd.Timestamp] / [datetime]: a calendar date and the time of day
    (microseconds since midnight). *)
Record datetime := mk_datetime { dt_date : date; dt_micros : Z }.

(** Three-way comparisons are chained the way tuples compare. *)
Definition lex (c1 c2 : comparison) : comparison :=
  match c1 with Eq => c2 | _ => c1 end.

Definition date_compare (a b : date) : comparison :=
  lex (Z.compare (year a) (year b))
      (lex (Z.compare (month a) (month b)) (Z.compare (day a) (day b))).

Definition date_eqb (a b : date) : bool :=
  Z.eqb (year a) (year b) && Z.eqb (month a) (month b) && Z.eqb (day a) (day b).

(** ** Cells, rows and exceptions *)

Inductive cell :=
| Null
| Text (s : string)
| Stamp (d : datetime)
| Number (x : float).

Definition row := list cell.

Inductive exn :=
| KeyError (k : nat)
| ValueError
| TypeError
| OtherError (what : string).

Inductive result (A : Type) :=
| Ok (a : A)
| Raise (e : exn).
Arguments Ok {A} a.
Arguments Raise {A} e.

Definition bind {A B} (m : result A) (k : A -> result B) : result B :=
  match m with
  | Ok a => k a
  | Raise e => Raise e
  end.

Notation "x <- m ;; k" := (bind m (fun x => k))
  (at level 61, m at next level, right associativity).

(** [pd.isna] on a scalar. *)
Definition isna (c : cell) : bool :=
  match c with
  | Null => true
  | Number x => PrimFloat.is_nan x
  | _ => false
  end.

(** [row[j]]: the rows of the frame are indexed by the column labels
    0 .. len(row)-1, anything else is a [KeyError]. *)
Definition getitem (r : row) (j : nat) : result cell :=
  match nth_error r j with
  | Some c => Ok c
  | None => Raise (KeyError j)
  end.

(** ** The price record *)

Record PriceRecord := mk_record {
  state : string;
  effective_date : date;
  terminal : string;
  fuel_type : string;
  price_cents_per_litre : float;
  scraped_timestamp : string
}.

(** ** Services of the Python runtime and of the libraries *)

Record Host := mk_host {
  (** [datetime.now().isoformat()] at the n-th call of the run *)
  now : nat -> string;
  (** [float(s)] on a string: [None] stands for [ValueError] *)
  float_of_str : string -> option float;
  (** [str(x)] on a float and on a timestamp *)
  str_of_float : float -> string;
  str_of_stamp : datetime -> string;
  (** [hashlib.md5(data).digest()] *)
  md5_digest : string -> string;
  (** [pd.read_excel(data, sheet_name=0, header=None)] as a list of rows *)
  read_excel : string -> result (list row);
  (** [pd.read_csv(data, parse_dates=...)] and [DataFrame.to_csv(index=False)] *)
  read_csv : string -> result (list PriceRecord);
  to_csv : list PriceRecord -> string
}.

(** ** The sheet parser *)

(** The dictionary [fuel_cols]: keys in insertion order; assigning to a key
    already present replaces its value and keeps its position. *)
Definition dict := list (string * nat).

Fixpoint dict_set (d : dict) (k : string) (v : nat) : dict :=
  match d with
  | [] => [(k, v)]
  | (k', v') :: t =>
      if String.eqb k' k then (k', v) :: t else (k', v') :: dict_set t k v
  end.

Record header := mk_header {
  date_col : nat;
  terminal_col : nat;
  fuel_cols : dict
}.

Record scan := mk_scan {
  current_state : option string;
  header_row : option header;
  data_records : list PriceRecord
}.

Definition banner_lines : list string :=
  [ "BP terminal gate pricing by state";
    "These prices are current and displayed in Australian cents per litre with GST included.";
    "Fuels are sold at temperature-corrected volumes as legislated by the federal government." ].

(** [{row[j].strip(): j for j in range(3, len(row))
      if not pd.isna(row[j]) and isinstance(row[j], str)}];
    [cells] is the part of the row from column [j] on. *)
Fixpoint build_fuel_cols (cells : list cell) (j : nat) (d : dict) : dict :=
  match cells with
  | [] => d
  | c :: rest =>
      let d' :=
        match c with
        | Text s => dict_set d (PyStr.strip s) j
        | _ => d
        end in
      build_fuel_cols rest (S j) d'
  end.

Definition fuel_cols_of_row (r : row) : dict :=
  build_fuel_cols (skipn 3 r) 3 [].

(** The test of line 36, for a first cell already known not to be NA. *)
Definition is_section_header (r : row) (c0 : cell) : bool :=
  match c0 with
  | Text s => PyStr.truthy (PyStr.strip s) && forallb isna (skipn 1 r)
  | _ => false
  end.

(** The test of line 45. *)
Definition is_terminal_header (c2 : cell) : bool :=
  match c2 with
  | Text s => String.eqb (PyStr.strip s) "Terminal"
  | _ => false
  end.

Section Parser.

Variable host : Host.

(** [float(price)] *)
Definition py_float (c : cell) : result float :=
  match c with
  | Number x => Ok x
  | Text s =>
      match float_of_str host s with
      | Some x => Ok x
      | None => Raise ValueError
      end
  | Stamp _ => Raise TypeError
  | Null => Raise TypeError
  end.

(** [str(v)] on a cell that is not NA. *)
Definition py_str (c : cell) : string :=
  match c with
  | Text s => s
  | Number x => str_of_float host x
  | Stamp d => str_of_stamp host d
  | Null => "None"
  end.

(** Line 56: the terminal name, [None] when the cell is NA. *)
Definition terminal_of (c : cell) : option string :=
  if isna c then None else Some (PyStr.strip (py_str c)).

(** Line 58: [terminal and terminal != 'nan']. *)
Definition terminal_ok (t : option string) : bool :=
  match t with
  | Some s => PyStr.truthy s && negb (String.eqb s "nan")
  | None => false
  end.

(** Lines 59-69: the loop over [header_row['fuel_cols'].items()]. *)
Fixpoint emit_fuels (st : string) (d : date) (term : string) (r : row)
         (fuels : dict) (acc : list PriceRecord) : result (list PriceRecord) :=
  match fuels with
  | [] => Ok acc
  | (fuel, col_idx) :: rest =>
      price <- getitem r col_idx ;;
      if isna price then emit_fuels st d term r rest acc
      else
        p <- py_float price ;;
        emit_fuels st d term r rest
          (acc ++ [mk_record st d term fuel p (now host (List.length acc))])
  end.

(** Line 54: [current_state and header_row and isinstance(row[0], ...)];
    the dictionary [header_row] is never empty, so it is true when set. *)
Definition data_context (s : scan) (c0 : cell)
  : option (string * header * datetime) :=
  match current_state s, header_row s, c0 with
  | Some st, Some h, Stamp d =>
      if PyStr.truthy st then Some (st, h, d) else None
  | _, _, _ => None
  end.

(** One iteration of the loop of lines 30-69. *)
Definition parse_row (s : scan) (r : row) : result scan :=
  c0 <- getitem r 0 ;;
  if isna c0 then Ok s
  else if is_section_header r c0 then
    match c0 with
    | Text s0 =>
        if PyStr.mem s0 banner_lines then Ok s
        else Ok (mk_scan (Some (PyStr.strip s0)) (header_row s) (data_records s))
    | _ => Ok s
    end
  else
    c2 <- getitem r 2 ;;
    if is_terminal_header c2 then
      Ok (mk_scan (current_state s)
                  (Some (mk_header 0 2 (fuel_cols_of_row r)))
                  (data_records s))
    else
      match data_context s c0 with
      | Some (st, h, d) =>
          ct <- getitem r (terminal_col h) ;;
          let t := terminal_of ct in
          if terminal_ok t then
            match t with
            | Some term =>
                recs <- emit_fuels st (dt_date d) term r (fuel_cols h)
                                   (data_records s) ;;
                Ok (mk_scan (current_state s) (header_row s) recs)
            | None => Ok s
            end
          else Ok s
      | None => Ok s
      end.

Fixpoint parse_rows (s : scan) (rows : list row) : result scan :=
  match rows with
  | [] => Ok s
  | r :: rest => s' <- parse_row s r ;; parse_rows s' rest
  end.

Definition scan0 : scan := mk_scan None None [].

(** [parse_bp_pricing], from the raw frame on. *)
Definition parse_bp_pricing (df_raw : list row) : result (list PriceRecord) :=
  s <- parse_rows scan0 df_raw ;; Ok (data_records s).

End Parser.

(** ** The history reconciler *)

(** The subset of [drop_duplicates]: (state, effective_date, terminal,
    fuel_type). *)
Definition identity : Type := string * date * string * string.

Definition identity_of (r : PriceRecord) : identity :=
  (state r, effective_date r, terminal r, fuel_type r).

Definition same_identity (a b : PriceRecord) : bool :=
  String.eqb (state a) (state b)
  && date_eqb (effective_date a) (effective_date b)
  && String.eqb (terminal a) (terminal b)
  && String.eqb (fuel_type a) (fuel_type b).

(** [df.drop_duplicates(subset=[...], keep='last')]: a row is dropped when a
    later row has the same identity; the rows kept stay in their order. *)
Fixpoint drop_duplicates_last (l : list PriceRecord) : list PriceRecord :=
  match l with
  | [] => []
  | x :: t =>
      if existsb (same_identity x) t then drop_duplicates_last t
      else x :: drop_duplicates_last t
  end.

Section Sorting.

Variable A : Type.
Variable cmp : A -> A -> comparison.

Fixpoint insert_sorted (x : A) (l : list A) : list A :=
  match l with
  | [] => [x]
  | y :: t =>
      match cmp x y with
      | Gt => y :: insert_sorted x t
      | _ => x :: l
      end
  end.

(** [df.sort_values(keys, ascending=...)] for the three-way comparison
    [cmp] of the key tuples; rows with equal keys keep their order. *)
Fixpoint sort_values (l : list A) : list A :=
  match l with
  | [] => []
  | x :: t => insert_sorted x (sort_values t)
  end.

End Sorting.

(** Line 113: ['state', 'effective_date', 'terminal', 'fuel_type'] with
    ascending = [True, False, True, True]. *)
Definition history_cmp (a b : PriceRecord) : comparison :=
  lex (String.compare (state a) (state b))
   (lex (date_compare (effective_date b) (effective_date a))
    (lex (String.compare (terminal a) (terminal b))
         (String.compare (fuel_type a) (fuel_type b)))).

(** Line 122: ['state', 'terminal', 'fuel_type'], all ascending. *)
Definition snapshot_cmp (a b : PriceRecord) : comparison :=
  lex (String.compare (state a) (state b))
   (lex (String.compare (terminal a) (terminal b))
        (String.compare (fuel_type a) (fuel_type b))).

(** Lines 105-113.  [history] is [None] when the history file does not
    exist, and the rows read from it otherwise. *)
Definition combine (history : option (list PriceRecord))
           (df_new : list PriceRecord) : list PriceRecord :=
  match history with
  | Some df_history => drop_duplicates_last (df_history ++ df_new)
  | None => df_new
  end.

Definition reconcile (history : option (list PriceRecord))
           (df_new : list PriceRecord) : list PriceRecord :=
  sort_values history_cmp (combine history df_new).

(** [df['effective_date'].max()], [None] on an empty frame. *)
Fixpoint max_date (l : list date) : option date :=
  match l with
  | [] => None
  | d :: t =>
      match max_date t with
      | None => Some d
      | Some m =>
          match date_compare d m with
          | Gt => Some d
          | _ => Some m
          end
      end
  end.

Definition latest_date (df : list PriceRecord) : option date :=
  max_date (map effective_date df).

(** Lines 120-122. *)
Definition df_latest (df_combined : list PriceRecord) : list PriceRecord :=
  match latest_date df_combined with
  | Some d =>
      sort_values snapshot_cmp
        (filter (fun r => date_eqb (effective_date r) d) df_combined)
  | None => []
  end.

(** ** The run *)

Record file := mk_file {
  (** [os.path.getctime] *)
  ctime : Z;
  content : string
}.

(** The working directory, in the order of [os.listdir('.')], and the time
    the operating system stamps on the files written. *)
Record World := mk_world {
  entries : list (string * file);
  os_time : Z
}.

Fixpoint lookup_file (es : list (string * file)) (name : string) : option file :=
  match es with
  | [] => None
  | (n, f) :: t => if String.eqb n name then Some f else lookup_file t name
  end.

Fixpoint store_file (es : list (string * file)) (name : string) (f : file)
  : list (string * file) :=
  match es with
  | [] => [(name, f)]
  | (n, g) :: t =>
      if String.eqb n name then (n, f) :: t else (n, g) :: store_file t name f
  end.

(** [open(name, 'w').write(data)] and [to_csv(name)]. *)
Definition write_file (w : World) (name data : string) : World :=
  mk_world (store_file (entries w) name (mk_file (os_time w) data)) (os_time w).

Definition hash_file : string := ".bp_pricing_hash".
Definition history_file : string := "bp_pricing_history.csv".
Definition latest_file : string := "bp_pricing_latest.csv".

(** Line 75. *)
Definition is_xlsx (name : string) : bool :=
  PyStr.endswith name ".xlsx" && negb (PyStr.endswith name ".html.xlsx").

(** [max(x :: l, key=key)]: the first of the greatest elements. *)
Fixpoint py_max_by (A : Type) (key : A -> Z) (x : A) (l : list A) : A :=
  match l with
  | [] => x
  | y :: t => if (key x <? key y)%Z then py_max_by key y t else py_max_by key x t
  end.

Definition hex_digit (n : nat) : ascii :=
  nth n [ "0"; "1"; "2"; "3"; "4"; "5"; "6"; "7";
          "8"; "9"; "a"; "b"; "c"; "d"; "e"; "f" ]%char "0"%char.

(** [digest.hex()] *)
Fixpoint hex (digest : string) : string :=
  match digest with
  | EmptyString => EmptyString
  | String c t =>
      let n := nat_of_ascii c in
      String (hex_digit (n / 16)) (String (hex_digit (n mod 16)) (hex t))
  end.

Inductive message :=
| NoXlsxFound
| FileUnchanged (digest : string)
| Processing (name : string)
| NoDataExtracted
| UpdatedHistory (n : nat)
| UpdatedLatest (n : nat) (as_of : option date)
| HashSaved (digest : string).

(** How the process ends: [sys.exit(code)], falling off the end of [main]
    (exit code 0), or an exception nobody catches (the interpreter prints
    the traceback and exits with code 1). *)
Inductive ending :=
| Exit (code : Z)
| Uncaught (e : exn).

Definition exit_code (e : ending) : Z :=
  match e with
  | Exit c => c
  | Uncaught _ => 1%Z
  end.

Record run := mk_run {
  run_end : ending;
  run_world : World;
  run_stdout : list message
}.

Section Main.

Variable host : Host.

(** [get_file_hash] on the bytes of the file. *)
Definition get_file_hash (data : string) : string :=
  hex (md5_digest host data).

Definition xlsx_files (w : World) : list (string * file) :=
  filter (fun e => is_xlsx (fst e)) (entries w).

(** Lines 77-81: the input file of the run,
    [max(xlsx_files, key=os.path.getctime)], [None] when the list is
    empty. *)
Definition selected_input (w : World) : option (string * file) :=
  match xlsx_files w with
  | [] => None
  | x :: rest => Some (py_max_by (fun e => ctime (snd e)) x rest)
  end.

(** Lines 88-94: the token file exists and holds the current digest. *)
Definition unchanged (w : World) (current_hash : string) : bool :=
  match lookup_file (entries w) hash_file with
  | Some f => String.eqb current_hash (PyStr.strip (content f))
  | None => false
  end.

(** Lines 105-106: the history frame, when the file exists. *)
Definition load_history (w : World) : result (option (list PriceRecord)) :=
  match lookup_file (entries w) history_file with
  | Some f => h <- read_csv host (content f) ;; Ok (Some h)
  | None => Ok None
  end.

Definition main (w : World) : run :=
  match selected_input w with
  | None => mk_run (Exit 1) w [NoXlsxFound]
  | Some latest_xlsx =>
      let current_hash := get_file_hash (content (snd latest_xlsx)) in
      if unchanged w current_hash then
        mk_run (Exit 0) w [FileUnchanged current_hash]
      else
        let out := [Processing (fst latest_xlsx)] in
        match (df_raw <- read_excel host (content (snd latest_xlsx)) ;;
               parse_bp_pricing host df_raw) with
        | Raise e => mk_run (Uncaught e) w out
        | Ok [] => mk_run (Exit 1) w (out ++ [NoDataExtracted])
        | Ok df_new =>
            match load_history w with
            | Raise e => mk_run (Uncaught e) w out
            | Ok history =>
                let df_combined := reconcile history df_new in
                let w1 := write_file w history_file (to_csv host df_combined) in
                let latest := df_latest df_combined in
                let w2 := write_file w1 latest_file (to_csv host latest) in
                let w3 := write_file w2 hash_file current_hash in
                mk_run (Exit 0) w3
                  (out ++ [ UpdatedHistory (List.length df_combined);
                            UpdatedLatest (List.length latest)
                                          (latest_date df_combined);
                            HashSaved current_hash ])
            end
        end
  end.

End Main.

(** * Vocabulary of the properties *)

(** A three-way comparison that is a strict total order on the keys it
    reads. *)
Record total_cmp (A : Type) (cmp : A -> A -> comparison) : Prop := {
  cmp_antisym : forall a b, cmp a b = CompOpp (cmp b a);
  cmp_lt_trans : forall a b c, cmp a b = Lt -> cmp b c = Lt -> cmp a c = Lt;
  cmp_eq_l : forall a b c, cmp a b = Eq -> cmp a c = cmp b c
}.

(** "not after": the relation a sorted frame satisfies between a row and
    the rows below it. *)
Definition cmp_le (A : Type) (cmp : A -> A -> comparison) (a b : A) : Prop :=
  cmp a b <> Gt.






(** What a record says, the extraction time left aside. *)
Definition values_of (r : PriceRecord) : identity * float :=
  (identity_of r, price_cents_per_litre r).

Fixpoint no_space (s : string) : bool :=
  match s with
  | EmptyString => true
  | String c t => negb (PyStr.is_space c) && no_space t
  end.

(** The digest of the selected input differs from the stored one, or no
    token is stored. *)
Definition file_changed (host : Host) (w : World) (input : string * file) : Prop :=
  lookup_file (entries w) hash_file = None
  \/ exists f, lookup_file (entries w) hash_file = Some f
               /\ PyStr.strip (content f)
                  <> get_file_hash host (content (snd input)).

(** The price cell of a fuel column holds a value. *)
Definition populated (r : row) (fc : string * nat) : bool :=
  match nth_error r (snd fc) with
  | Some c => negb (isna c)
  | None => false
  end.

(** The price cell of a fuel column exists and is empty or a price. *)
Definition price_cell_ok (host : Host) (r : row) (fc : string * nat) : Prop :=
  exists c, nth_error r (snd fc) = Some c
            /\ (isna c = true \/ exists x, py_float host c = Ok x).

(** [rec] is the record of fuel column [fc] of the data row [r]. *)
Definition record_of_column (host : Host) (st : string) (d : date)
           (term : string) (r : row) (fc : string * nat)
           (rec : PriceRecord) : Prop :=
  state rec = st /\ effective_date rec = d /\ terminal rec = term
  /\ fuel_type rec = fst fc
  /\ exists c, nth_error r (snd fc) = Some c /\ isna c = false
               /\ py_float host c = Ok (price_cents_per_litre rec).

(** Column [j] is the rightmost column, from column 3 on, whose cell is a
    string that trims to [name]. *)
Definition is_rightmost (hr : row) (name : string) (j : nat) : Prop :=
  3 <= j
  /\ (exists t, nth_error hr j = Some (Text t) /\ PyStr.strip t = name)
  /\ forall j' t', j < j' -> nth_error hr j' = Some (Text t') ->
                   PyStr.strip t' <> name.

(** In a row that starts with a date, every cell from column 3 on is empty
    or a value [float()] accepts. *)
Definition prices_convertible (host : Host) (r : row) : Prop :=
  forall d j c,
    nth_error r 0 = Some (Stamp d) -> 3 <= j -> nth_error r j = Some c ->
    isna c = true \/ exists x, py_float host c = Ok x.

(** The columns recorded by the active header exist in a frame of [w]
    columns. *)
Definition header_in_range (w : nat) (s : scan) : Prop :=
  forall h, header_row s = Some h ->
            terminal_col h < w
            /\ Forall (fun fc => 3 <= snd fc < w) (fuel_cols h).

(** * Inputs of the examples *)

Definition jan10 : datetime := mk_datetime (mk_date 2024 1 10) 0.

(** The grid as the specification writes it: the header row starts with an
    empty cell. *)
Definition scenario_grid : list row :=
  [ [Text "Queensland"; Null; Null];
    [Null; Null; Text "Terminal"; Text "Unleaded 91"; Text "Diesel"];
    [Stamp jan10; Null; Text "Eagle Farm"; Number 189.9; Number 195.5] ].

(** The same grid as a frame of five columns. *)
Definition scenario_frame : list row :=
  [ [Text "Queensland"; Null; Null; Null; Null];
    [Null; Null; Text "Terminal"; Text "Unleaded 91"; Text "Diesel"];
    [Stamp jan10; Null; Text "Eagle Farm"; Number 189.9; Number 195.5] ].

(** The sheet as published: the header row reads "Effective Date" in its
    first cell. *)
Definition scenario_sheet : list row :=
  [ [Text "Queensland"; Null; Null; Null; Null];
    [Text "Effective Date"; Null; Text "Terminal"; Text "Unleaded 91";
     Text "Diesel"];
    [Stamp jan10; Null; Text "Eagle Farm"; Number 189.9; Number 195.5] ].

Definition eagle_farm (fuel : string) (price : float) (ts : string)
  : PriceRecord :=
  mk_record "Queensland" (mk_date 2024 1 10) "Eagle Farm" fuel price ts.

(** A host for the examples: a clock that stands still, an MD5 that is not
    computed (the digest is the data itself), an empty workbook and an
    empty history whatever the bytes.  No example hands a string to
    [float()]. *)
Definition example_host : Host :=
  mk_host (fun _ => "2024-01-11T09:00:00")
          (fun _ => None)
          (fun _ => "0.0")
          (fun _ => "2024-01-10 00:00:00")
          (fun data => data)
          (fun _ => Ok [])
          (fun _ => Ok [])
          (fun _ => "").

(** A frame of two columns, and a data row whose price cell holds a
    timestamp. *)
Definition narrow_frame : list row := [ [Text "a"; Text "b"] ].

Definition bad_price_frame : list row :=
  [ [Text "Queensland"; Null; Null; Null];
    [Text "Effective Date"; Null; Text "Terminal"; Text "Diesel"];
    [Stamp jan10; Null; Text "Eagle Farm"; Stamp jan10] ].

(** A data row with three fuel columns, the second of them empty. *)
Definition active_scan : scan :=
  mk_scan (Some "Queensland")
          (Some (mk_header 0 2 [("Unleaded 91", 3); ("Premium", 4); ("Diesel", 5)]))
          [].

Definition partial_row : row :=
  [Stamp jan10; Null; Text "Eagle Farm"; Number 189.9; Null; Number 195.5].

(** A header row that names Diesel twice, and a data row under it. *)
Definition twice_diesel : row :=
  [Text "Effective Date"; Null; Text "Terminal"; Text "Diesel"; Text "ULP";
   Text " Diesel "].

(** A history of two records and an incoming frame that repeats one. *)
Definition known_history : list PriceRecord :=
  [ eagle_farm "Diesel" 195.5 "2024-01-10T09:00:00";
    eagle_farm "Unleaded 91" 189.9 "2024-01-10T09:00:00" ].


(** A directory with one workbook and the token of that workbook. *)
Definition workbook : string * file := ("prices.xlsx", mk_file 10 "workbook-bytes").

Definition stored_token : file :=
  mk_file 11 (get_file_hash example_host "workbook-bytes").

Definition unchanged_world : World :=
  mk_world [ workbook; (hash_file, stored_token) ] 20.

(** A directory without a workbook, and one whose workbook is new and
    yields nothing. *)
Definition no_input_world : World :=
  mk_world [ ("notes.txt", mk_file 1 "x"); ("page.html.xlsx", mk_file 2 "y") ] 20.

Definition empty_extraction_world : World :=
  mk_world [ workbook; (hash_file, mk_file 5 "0000") ] 20.

(** A first run on a sheet that lists one terminal twice for the same day:
    both rows reach the history, since nothing is merged when there is no
    history file. *)
Definition repeated_row_sheet : list row :=
  [ [Text "Queensland"; Null; Null; Null];
    [Text "Effective Date"; Null; Text "Terminal"; Text "Diesel"];
    [Stamp jan10; Null; Text "Eagle Farm"; Number 100];
    [Stamp jan10; Null; Text "Eagle Farm"; Number 105] ].

(** * The rest of the script *)

(** ** [get_file_hash], chunk by chunk *)

(** [f.read(n)]: the next [n] bytes of the file, fewer when the file ends
    before, paired with what is left to read. *)
Fixpoint read_bytes (n : nat) (unread : string) : string * string :=
  match n, unread with
  | S k, String c t =>
      let (chunk, rest) := read_bytes k t in (String c chunk, rest)
  | _, _ => (EmptyString, unread)
  end.

(** Lines 16-17: [for chunk in iter(lambda: f.read(size), b""):
    hash_md5.update(chunk)].  The hash object is what it has been fed so
    far ([update(a); update(b)] is [update(a + b)]); the loop ends at the
    first empty chunk.  [fuel] bounds the number of reads. *)
Fixpoint hash_chunks (size fuel : nat) (unread hash_md5 : string)
  : option string :=
  match fuel with
  | 0 => None
  | S fuel' =>
      let (chunk, rest) := read_bytes size unread in
      match chunk with
      | EmptyString => Some hash_md5
      | _ => hash_chunks size fuel' rest (hash_md5 ++ chunk)
      end
  end.

(** Lines 12-18, with the loop written out. *)
Definition get_file_hash_by_chunks (host : Host) (data : string) (fuel : nat)
  : option string :=
  match hash_chunks 4096 fuel data EmptyString with
  | Some hash_md5 => Some (hex (md5_digest host hash_md5))
  | None => None
  end.

(** The value of a hexadecimal digit, 16 for any other character. *)
Definition hex_value (c : ascii) : nat :=
  let n := nat_of_ascii c in
  if ((48 <=? n) && (n <=? 57))%nat then n - 48
  else if ((97 <=? n) && (n <=? 102))%nat then n - 87
  else 16.

(** ** Vocabulary of the further properties *)

(** The three files the script writes. *)
Definition output_files : list string := [history_file; latest_file; hash_file].


(** The state of a record is a non-empty trimmed string, its terminal a
    non-empty trimmed string other than "nan", its fuel type a trimmed
    string. *)
Definition well_formed_record (r : PriceRecord) : Prop :=
  state r <> EmptyString /\ PyStr.strip (state r) = state r
  /\ terminal r <> EmptyString /\ terminal r <> "nan"
  /\ PyStr.strip (terminal r) = terminal r
  /\ PyStr.strip (fuel_type r) = fuel_type r.

(** What the scan keeps true of [current_state] and [header_row]. *)
Definition scan_invariant (s : scan) : Prop :=
  (forall st, current_state s = Some st ->
              st <> EmptyString /\ PyStr.strip st = st)
  /\ (forall h, header_row s = Some h ->
                date_col h = 0 /\ terminal_col h = 2
                /\ NoDup (map fst (fuel_cols h))
                /\ Forall (fun fc => PyStr.strip (fst fc) = fst fc /\ 3 <= snd fc)
                          (fuel_cols h)).

(** The row names a state: a section header whose text is not one of the
    banner lines. *)
Definition names_a_state (r : row) : bool :=
  match nth_error r 0 with
  | Some (Text s0) =>
      is_section_header r (Text s0) && negb (PyStr.mem s0 banner_lines)
  | _ => false
  end.

(** The row is read without effect whatever the scan: its first cell is
    empty, or it is a section header. *)
Definition quiet_row (r : row) : bool :=
  match nth_error r 0 with
  | Some c0 => isna c0 || is_section_header r c0
  | None => false
  end.

(** The row carries the header literal in its third cell. *)
Definition has_terminal_literal (r : row) : bool :=
  match nth_error r 2 with
  | Some c2 => is_terminal_header c2
  | None => false
  end.



(** The key of the snapshot order. *)
Definition snapshot_key (r : PriceRecord) : string * string * string :=
  (state r, terminal r, fuel_type r).

(** The directory after the three writes of lines 116, 124 and 128-129. *)
Definition after_processing (host : Host) (w : World) (current_hash : string)
           (df_combined : list PriceRecord) : World :=
  write_file
    (write_file
       (write_file w history_file (to_csv host df_combined))
       latest_file (to_csv host (df_latest df_combined)))
    hash_file current_hash.

(** Lines 97-98: the frame parsed from the bytes of the input file. *)
Definition parsed_input (host : Host) (input : string * file)
  : result (list PriceRecord) :=
  df_raw <- read_excel host (content (snd input)) ;;
  parse_bp_pricing host df_raw.


Definition scenario_host : Host :=
  mk_host (now example_host) (float_of_str example_host)
          (str_of_float example_host) (str_of_stamp example_host)
          (md5_digest example_host)
          (fun _ => Ok scenario_sheet)
          (read_csv example_host) (to_csv example_host).

(** A sheet with a header row and a data row, whose price cell is not a
    number, but no state. *)
Definition stateless_sheet : list row :=
  [ [Text "Effective Date"; Null; Text "Terminal"; Text "Diesel"];
    [Stamp jan10; Null; Text "Eagle Farm"; Text "n/a"] ].


(** A directory that holds a new workbook only. *)
Definition first_run_world : World := mk_world [ workbook ] 20.

(** * Properties *)

(** ** Comparisons *)

Lemma date_eqb_eq (a b : date) : date_eqb a b = true <-> a = b.
Proof.
  destruct a as [y1 m1 d1], b as [y2 m2 d2]; unfold date_eqb; simpl.
  rewrite !andb_true_iff, !Z.eqb_eq. split.
  - intros [[-> ->] ->]. reflexivity.
  - intros E. injection E as -> -> ->. auto.
Qed.

Lemma date_eqb_refl (a : date) : date_eqb a a = true.
Proof. apply date_eqb_eq. reflexivity. Qed.

Lemma same_identity_iff (a b : PriceRecord) :
  same_identity a b = true <-> identity_of a = identity_of b.
Proof.
  unfold same_identity, identity_of.
  rewrite !andb_true_iff, !String.eqb_eq, date_eqb_eq. split.
  - intros [[[-> ->] ->] ->]. reflexivity.
  - intros E. injection E as -> -> -> ->. auto.
Qed.

Lemma same_identity_false_iff (a b : PriceRecord) :
  same_identity a b = false <-> identity_of a <> identity_of b.
Proof.
  rewrite <- same_identity_iff. destruct (same_identity a b); split; congruence.
Qed.

Section TotalCmp.

Variable A : Type.

Lemma cmp_eq_r (cmp : A -> A -> comparison) :
  total_cmp cmp -> forall a b c, cmp b c = Eq -> cmp a b = cmp a c.
Proof.
  intros T a b c E.
  rewrite (cmp_antisym T a b), (cmp_antisym T a c).
  f_equal. apply (cmp_eq_l T). exact E.
Qed.

Lemma cmp_refl (cmp : A -> A -> comparison) :
  total_cmp cmp -> forall a, cmp a a = Eq.
Proof.
  intros T a. pose proof (cmp_antisym T a a) as E.
  destruct (cmp a a); simpl in E; congruence.
Qed.

Lemma total_cmp_lex (c1 c2 : A -> A -> comparison) :
  total_cmp c1 -> total_cmp c2 -> total_cmp (fun a b => lex (c1 a b) (c2 a b)).
Proof.
  intros T1 T2. split.
  - intros a b. rewrite (cmp_antisym T1 a b), (cmp_antisym T2 a b).
    destruct (c1 b a); reflexivity.
  - intros a b c. unfold lex.
    destruct (c1 a b) eqn:Eab; try discriminate.
    + rewrite (cmp_eq_l T1 _ _ c Eab).
      destruct (c1 b c); try discriminate; auto.
      apply (cmp_lt_trans T2).
    + intros _. destruct (c1 b c) eqn:Ebc; try discriminate.
      * rewrite <- (cmp_eq_r T1 a _ _ Ebc), Eab. reflexivity.
      * rewrite (cmp_lt_trans T1 _ _ _ Eab Ebc). reflexivity.
  - intros a b c. unfold lex.
    destruct (c1 a b) eqn:Eab; try discriminate.
    intros E2. rewrite (cmp_eq_l T1 _ _ c Eab), (cmp_eq_l T2 _ _ c E2).
    reflexivity.
Qed.


Lemma total_cmp_on (B : Type) (f : A -> B) (cmp : B -> B -> comparison) :
  total_cmp cmp -> total_cmp (fun a b => cmp (f a) (f b)).
Proof.
  intros T. split.
  - intros a b. apply (cmp_antisym T).
  - intros a b c. apply (cmp_lt_trans T).
  - intros a b c. apply (cmp_eq_l T).
Qed.

Lemma cmp_le_trans (cmp : A -> A -> comparison) :
  total_cmp cmp ->
  forall a b c, cmp_le cmp a b -> cmp_le cmp b c -> cmp_le cmp a c.
Proof.
  intros T a b c. unfold cmp_le.
  destruct (cmp a b) eqn:Eab; try congruence; intros _.
  - rewrite (cmp_eq_l T _ _ c Eab). auto.
  - destruct (cmp b c) eqn:Ebc; try congruence; intros _.
    + rewrite <- (cmp_eq_r T a _ _ Ebc), Eab. discriminate.
    + rewrite (cmp_lt_trans T _ _ _ Eab Ebc). discriminate.
Qed.

End TotalCmp.

Lemma total_cmp_Z : total_cmp Z.compare.
Proof.
  split.
  - intros a b. apply Z.compare_antisym.
  - intros a b c. rewrite !Z.compare_lt_iff. lia.
  - intros a b c E. apply Z.compare_eq in E. subst. reflexivity.
Qed.

Lemma ascii_compare_refl (a : ascii) : Ascii.compare a a = Eq.
Proof. unfold Ascii.compare. apply N.compare_refl. Qed.

Lemma string_compare_refl (s : string) : String.compare s s = Eq.
Proof.
  induction s as [|c s IH]; simpl; [reflexivity|].
  rewrite ascii_compare_refl. exact IH.
Qed.



Lemma total_cmp_date : total_cmp date_compare.
Proof.
  unfold date_compare.
  apply (total_cmp_lex (c1 := fun a b => Z.compare (year a) (year b))).
  - apply (total_cmp_on year total_cmp_Z).
  - apply (total_cmp_lex (c1 := fun a b => Z.compare (month a) (month b))).
    + apply (total_cmp_on month total_cmp_Z).
    + apply (total_cmp_on day total_cmp_Z).
Qed.




(** ** [sort_values] *)

Section SortFacts.

Variable A : Type.
Variable cmp : A -> A -> comparison.

Lemma insert_sorted_perm (x : A) (l : list A) :
  Permutation (insert_sorted cmp x l) (x :: l).
Proof.
  induction l as [|y t IH]; simpl; [reflexivity|].
  destruct (cmp x y); try reflexivity.
  rewrite IH. apply perm_swap.
Qed.

Lemma sort_values_perm (l : list A) : Permutation (sort_values cmp l) l.
Proof.
  induction l as [|x t IH]; simpl; [reflexivity|].
  rewrite insert_sorted_perm. constructor. exact IH.
Qed.

Lemma sort_values_In (l : list A) (x : A) :
  In x (sort_values cmp l) <-> In x l.
Proof.
  split; apply Permutation_in;
    [apply sort_values_perm | symmetry; apply sort_values_perm].
Qed.

Lemma sort_values_length (l : list A) :
  List.length (sort_values cmp l) = List.length l.
Proof. apply Permutation_length, sort_values_perm. Qed.

Hypothesis T : total_cmp cmp.



End SortFacts.

(** ** The two presentation orders, spelled out *)






(** ** [drop_duplicates(keep='last')] *)








(** ** [max] of the effective dates *)

Lemma max_date_spec (l : list date) (m : date) :
  max_date l = Some m ->
  In m l /\ forall d, In d l -> date_compare d m <> Gt.
Proof.
  revert m. induction l as [|x t IH]; simpl; [discriminate|].
  intros m. destruct (max_date t) as [m'|] eqn:Em.
  - destruct (IH m' eq_refl) as [Hin Hmax].
    destruct (date_compare x m') eqn:Ec; intros E; injection E as <-.
    + split; [auto|]. intros d [<-|Hd]; [congruence|auto].
    + split; [auto|]. intros d [<-|Hd]; [congruence|auto].
    + split; [auto|]. intros d [<-|Hd].
      * rewrite (cmp_refl total_cmp_date). discriminate.
      * apply (cmp_le_trans total_cmp_date) with m'; [apply Hmax; exact Hd|].
        unfold cmp_le. rewrite (cmp_antisym total_cmp_date), Ec. discriminate.
  - intros E; injection E as <-. destruct t as [|y t].
    + split; [auto|]. intros d [<-|[]].
      rewrite (cmp_refl total_cmp_date). discriminate.
    + simpl in Em. destruct (max_date t); [destruct (date_compare y d)|];
        discriminate.
Qed.

Lemma max_date_nonempty (l : list date) : l <> [] -> max_date l <> None.
Proof.
  destruct l as [|x t]; [congruence|]. intros _. simpl.
  destruct (max_date t); [destruct (date_compare x d)|]; discriminate.
Qed.


(** ** The reconciler *)



(** C5.  Every record of the snapshot has the greatest effective_date of
    the full set, and every record of the full set with that date is in the
    snapshot, as many times as in the full set. *)
Theorem snapshot_is_latest_date :
  forall df_combined : list PriceRecord,
    (forall r, In r (df_latest df_combined) <->
               In r df_combined
               /\ latest_date df_combined = Some (effective_date r))
    /\ (forall d, latest_date df_combined = Some d ->
                  (exists r, In r df_combined /\ effective_date r = d)
                  /\ (forall r, In r df_combined ->
                                date_compare (effective_date r) d <> Gt)
                  /\ Permutation
                       (df_latest df_combined)
                       (filter (fun r => date_eqb (effective_date r) d)
                               df_combined))
    /\ (df_combined <> [] -> latest_date df_combined <> None).
Proof.
  intros df. repeat split.
  - unfold df_latest in H. destruct (latest_date df); [|contradiction].
    apply sort_values_In, filter_In in H. tauto.
  - unfold df_latest in H. destruct (latest_date df); [|contradiction].
    apply sort_values_In, filter_In in H. destruct H as [_ E].
    apply date_eqb_eq in E. congruence.
  - intros [Hr E]. unfold df_latest. rewrite E.
    apply sort_values_In, filter_In. split; [exact Hr|apply date_eqb_refl].
  - unfold latest_date in H. apply max_date_spec in H. destruct H as [Hin _].
    apply in_map_iff in Hin. destruct Hin as [r [E Hr]]. eauto.
  - intros r Hr. unfold latest_date in H. apply max_date_spec in H.
    destruct H as [_ Hmax]. apply Hmax. apply in_map. exact Hr.
  - unfold df_latest. rewrite H. apply sort_values_perm.
  - intros Hne. unfold latest_date. apply max_date_nonempty.
    destruct df; simpl; congruence.
Qed.


(** On a first run (no history file) the incoming frame is taken as it is:
    two rows of one sheet with the same identity both reach the history. *)
Lemma first_run_keeps_incoming (df_new : list PriceRecord) :
  Permutation (reconcile None df_new) df_new.
Proof. apply sort_values_perm. Qed.

(** ** The run: change detection and fatal errors *)

Lemma lstrip_no_space (s : string) : no_space s = true -> PyStr.lstrip s = s.
Proof.
  destruct s as [|c t]; simpl; [reflexivity|].
  rewrite andb_true_iff, negb_true_iff. intros [-> _]. reflexivity.
Qed.

Lemma rstrip_no_space (s : string) : no_space s = true -> PyStr.rstrip s = s.
Proof.
  induction s as [|c t IH]; simpl; [reflexivity|].
  rewrite andb_true_iff, negb_true_iff. intros [Hc Ht].
  rewrite (IH Ht), Hc. destruct t; reflexivity.
Qed.

Lemma strip_no_space (s : string) : no_space s = true -> PyStr.strip s = s.
Proof.
  intros H. unfold PyStr.strip. rewrite (lstrip_no_space _ H).
  apply rstrip_no_space, H.
Qed.

Lemma hex_digit_no_space (n : nat) : PyStr.is_space (hex_digit n) = false.
Proof.
  unfold hex_digit.
  do 16 (destruct n as [|n]; [reflexivity|]).
  simpl. destruct n; reflexivity.
Qed.

Lemma hex_no_space (digest : string) : no_space (hex digest) = true.
Proof.
  induction digest as [|c t IH]; [reflexivity|].
  cbn [hex no_space]. rewrite !hex_digit_no_space, IH. reflexivity.
Qed.

(** A hexadecimal digest is left alone by [strip()]. *)
Lemma strip_hex (digest : string) : PyStr.strip (hex digest) = hex digest.
Proof. apply strip_no_space, hex_no_space. Qed.

(** C7.  When the token file exists and its content is the MD5 digest just
    computed for the selected input file, the process ends with exit code 0
    and the directory is left exactly as it was: no file is written, so the
    history file, the snapshot file and the token file are unmodified. *)
Theorem unchanged_file_short_circuit :
  forall (host : Host) (w : World) (input : string * file) (token : file),
    selected_input w = Some input ->
    lookup_file (entries w) hash_file = Some token ->
    content token = get_file_hash host (content (snd input)) ->
    run_end (main host w) = Exit 0
    /\ run_world (main host w) = w
    /\ lookup_file (entries (run_world (main host w))) history_file
       = lookup_file (entries w) history_file
    /\ lookup_file (entries (run_world (main host w))) latest_file
       = lookup_file (entries w) latest_file
    /\ lookup_file (entries (run_world (main host w))) hash_file = Some token.
Proof.
  intros host w input token Hsel Htok Hdig.
  unfold main. rewrite Hsel.
  unfold unchanged. rewrite Htok, Hdig.
  unfold get_file_hash. rewrite strip_hex, String.eqb_refl. simpl.
  rewrite Htok. auto.
Qed.

(** C8.  The two fatal conditions end the process with a non-zero exit code
    and leave the directory exactly as it was: no candidate spreadsheet in
    the directory, and a changed file (no token stored, or a token that
    differs from the digest) from which the parser extracts no record. *)
Theorem fatal_errors_write_nothing :
  forall (host : Host) (w : World),
    (selected_input w = None
     \/ exists input,
          selected_input w = Some input
          /\ file_changed host w input
          /\ (df_raw <- read_excel host (content (snd input)) ;;
              parse_bp_pricing host df_raw) = Ok []) ->
    run_end (main host w) = Exit 1
    /\ exit_code (run_end (main host w)) <> 0%Z
    /\ run_world (main host w) = w.
Proof.
  intros host w Hfatal.
  assert (G : run_end (main host w) = Exit 1 /\ run_world (main host w) = w).
  { unfold main.
    destruct Hfatal as [->|[input [-> [Hch Hparse]]]]; [auto|].
    assert (U : unchanged w (get_file_hash host (content (snd input)))
                = false).
    { unfold unchanged. destruct Hch as [->|[f [-> Hne]]]; [reflexivity|].
      apply String.eqb_neq. congruence. }
    rewrite U, Hparse. auto. }
  destruct G as [G1 G2]. rewrite G1. repeat split; auto. discriminate.
Qed.

(** ** The parser: one data row *)

Lemma filter_split_length (A : Type) (p : A -> bool) (l : list A) :
  List.length (filter p l) + List.length (filter (fun x => negb (p x)) l)
  = List.length l.
Proof.
  induction l as [|x t IH]; simpl; [reflexivity|].
  destruct (p x); simpl; lia.
Qed.

Lemma filter_keeps_distinct_names (keep : string * nat -> bool) :
  forall fuels : dict,
    NoDup (map fst fuels) -> NoDup (map fst (filter keep fuels)).
Proof.
  intros fuels. induction fuels as [|[name col] rest IH]; simpl; [auto|].
  intros ND. apply NoDup_cons_iff in ND. destruct ND as [Hfresh ND].
  destruct (keep (name, col)); simpl; [|auto].
  apply NoDup_cons; [|auto].
  intros Hin. apply Hfresh. apply in_map_iff in Hin.
  destruct Hin as [[name' col'] [E Hin]]. simpl in E. subst name'.
  apply filter_In in Hin. destruct Hin as [Hin _].
  apply in_map_iff. exists (name, col'). auto.
Qed.

Section DataRow.

Variable host : Host.
Variables (st : string) (d : date) (term : string) (r : row).

(** What the loop over the fuel columns appends, when it ends normally:
    one record per populated column, in the order of the mapping. *)
Lemma emit_fuels_records (fuels : dict) :
  forall acc out,
    emit_fuels host st d term r fuels acc = Ok out ->
    exists recs,
      out = acc ++ recs
      /\ Forall2 (record_of_column host st d term r)
                 (filter (populated r) fuels) recs.
Proof.
  induction fuels as [|[fuel col] rest IH]; simpl; intros acc out E.
  - injection E as <-. exists []. rewrite app_nil_r. split; constructor.
  - unfold getitem in E. unfold populated at 1. simpl.
    destruct (nth_error r col) as [c|] eqn:Ec; simpl in E; [|discriminate].
    destruct (isna c) eqn:Ena; simpl.
    + apply IH. exact E.
    + destruct (py_float host c) as [p|e] eqn:Ep; simpl in E; [|discriminate].
      destruct (IH _ _ E) as [recs [-> F]].
      eexists (_ :: recs). split; [rewrite <- app_assoc; reflexivity|].
      constructor; [|exact F].
      unfold record_of_column. simpl. repeat split; auto.
      exists c. auto.
Qed.

(** The loop ends normally when every price cell is empty or a price. *)
Lemma emit_fuels_total (fuels : dict) :
  Forall (price_cell_ok host r) fuels ->
  forall acc, exists out, emit_fuels host st d term r fuels acc = Ok out.
Proof.
  induction 1 as [|[fuel col] rest [c [Ec Hc]] _ IH]; simpl; intros acc.
  - eauto.
  - simpl in Ec. unfold getitem. rewrite Ec. simpl.
    destruct (isna c) eqn:Ena; [apply IH|].
    destruct Hc as [Hc|[x Hx]]; [discriminate|].
    rewrite Hx. simpl. apply IH.
Qed.

End DataRow.

Lemma Forall2_length_eq (A B : Type) (R : A -> B -> Prop) (l : list A) (l' : list B) :
  Forall2 R l l' -> List.length l = List.length l'.
Proof. induction 1; simpl; congruence. Qed.

Lemma record_of_column_fuels (host : Host) st d term r l recs :
  Forall2 (record_of_column host st d term r) l recs ->
  map fuel_type recs = map fst l.
Proof.
  induction 1 as [|fc rec l recs H _ IH]; simpl; [reflexivity|].
  destruct H as (_ & _ & _ & -> & _). congruence.
Qed.

(** The rows that reach the data-row branch. *)
Lemma parse_row_data (host : Host) (s : scan) (r : row)
      (st : string) (h : header) (d : datetime) (c2 ct : cell) (term : string) :
  current_state s = Some st -> PyStr.truthy st = true ->
  header_row s = Some h ->
  nth_error r 0 = Some (Stamp d) ->
  nth_error r 2 = Some c2 -> is_terminal_header c2 = false ->
  nth_error r (terminal_col h) = Some ct ->
  terminal_of host ct = Some term -> terminal_ok (Some term) = true ->
  parse_row host s r =
  (recs <- emit_fuels host st (dt_date d) term r (fuel_cols h) (data_records s) ;;
   Ok (mk_scan (current_state s) (header_row s) recs)).
Proof.
  intros Hst Htr Hh H0 H2 Hnh Hct Hterm Hok.
  unfold parse_row, getitem, data_context.
  rewrite H0. cbn [bind isna is_section_header]. rewrite H2.
  cbn [bind]. rewrite Hnh, Hst, Hh, Htr, Hct. cbn [bind].
  cbv zeta. rewrite Hterm, Hok. reflexivity.
Qed.

(** C4.  A data row read with an active state and header mapping, a date in
    its first cell, a valid terminal cell and three fuel columns whose price
    cells are one empty and two populated, adds exactly two records: one per
    populated fuel column, in the order of the mapping, and none for the
    empty one. *)
Theorem partial_row_yields_two_records :
  forall (host : Host) (s : scan) (r : row)
         (st : string) (h : header) (d : datetime) (c2 ct : cell) (term : string),
    current_state s = Some st -> PyStr.truthy st = true ->
    header_row s = Some h ->
    nth_error r 0 = Some (Stamp d) ->
    nth_error r 2 = Some c2 -> is_terminal_header c2 = false ->
    nth_error r (terminal_col h) = Some ct ->
    terminal_of host ct = Some term -> terminal_ok (Some term) = true ->
    List.length (fuel_cols h) = 3 ->
    Forall (price_cell_ok host r) (fuel_cols h) ->
    List.length (filter (fun fc => negb (populated r fc)) (fuel_cols h)) = 1 ->
    exists r1 r2,
      parse_row host s r
      = Ok (mk_scan (current_state s) (header_row s)
                    (data_records s ++ [r1; r2]))
      /\ Forall2 (record_of_column host st (dt_date d) term r)
                 (filter (populated r) (fuel_cols h)) [r1; r2].
Proof.
  intros host s r st h d c2 ct term Hst Htr Hh H0 H2 Hnh Hct Hterm Hok
         Hlen Hcells Hempty.
  rewrite (@parse_row_data host s r st h d c2 ct term
             Hst Htr Hh H0 H2 Hnh Hct Hterm Hok).
  destruct (@emit_fuels_total host st (dt_date d) term r (fuel_cols h)
              Hcells (data_records s)) as [out E].
  rewrite E. simpl.
  destruct (@emit_fuels_records host st (dt_date d) term r (fuel_cols h)
              (data_records s) out E) as [recs [-> F]].
  pose proof (Forall2_length_eq F) as L.
  pose proof (filter_split_length (populated r) (fuel_cols h)) as S.
  rewrite Hlen, Hempty in S.
  destruct recs as [|r1 [|r2 [|r3 recs]]]; simpl in L; try lia.
  exists r1, r2. split; [reflexivity|exact F].
Qed.

(** ** The fuel-column mapping of a header row *)

Lemma dict_set_keys (d : dict) (k : string) (v : nat) :
  forall n, In n (map fst (dict_set d k v)) <-> n = k \/ In n (map fst d).
Proof.
  induction d as [|[k' v'] t IH]; simpl; intros n.
  - intuition congruence.
  - destruct (String.eqb_spec k' k) as [->|Hne]; simpl.
    + intuition congruence.
    + rewrite IH. tauto.
Qed.

Lemma dict_set_NoDup (d : dict) (k : string) (v : nat) :
  NoDup (map fst d) -> NoDup (map fst (dict_set d k v)).
Proof.
  induction d as [|[k' v'] t IH]; simpl; intros ND.
  - constructor; [simpl; tauto|constructor].
  - inversion ND as [|? ? Hk ND']; subst.
    destruct (String.eqb_spec k' k) as [->|Hne]; simpl.
    + constructor; assumption.
    + constructor; [|auto]. rewrite dict_set_keys. intros [E|Hin]; auto.
Qed.

Lemma dict_set_In (d : dict) (k : string) (v : nat) :
  NoDup (map fst d) ->
  forall n x, In (n, x) (dict_set d k v)
              <-> (n = k /\ x = v) \/ (n <> k /\ In (n, x) d).
Proof.
  induction d as [|[k' v'] t IH]; simpl; intros ND n x.
  - split.
    + intros [E|[]]. injection E as <- <-. auto.
    + intros [[-> ->]|[_ []]]. auto.
  - inversion ND as [|? ? Hk ND']; subst.
    destruct (String.eqb_spec k' k) as [->|Hne]; simpl.
    + split.
      * intros [E|Hin]; [injection E as <- <-; auto|].
        right. split; [|auto]. intros ->. apply Hk.
        change k with (fst (k, x)). apply in_map. exact Hin.
      * intros [[-> ->]|[Hn [E|Hin]]]; auto.
        injection E as <- <-. congruence.
    + rewrite (IH ND'). split.
      * intros [E|[[-> ->]|[Hn Hin]]]; auto.
        injection E as <- <-. auto.
      * intros [[-> ->]|[Hn [E|Hin]]]; auto.
Qed.

(** The mapping built from the cells [cells], which start at column [j],
    on top of the mapping [d]. *)
Lemma build_fuel_cols_spec (cells : list cell) :
  forall (j : nat) (d : dict),
    NoDup (map fst d) ->
    NoDup (map fst (build_fuel_cols cells j d))
    /\ forall n v,
        In (n, v) (build_fuel_cols cells j d)
        <-> (exists i t,
                v = j + i
                /\ nth_error cells i = Some (Text t) /\ PyStr.strip t = n
                /\ forall i' t', i < i' -> nth_error cells i' = Some (Text t') ->
                                 PyStr.strip t' <> n)
            \/ (In (n, v) d
                /\ forall i t, nth_error cells i = Some (Text t) ->
                               PyStr.strip t <> n).
Proof.
  induction cells as [|c rest IH]; intros j d ND.
  - simpl. split; [exact ND|]. intros n v. split.
    + intros H. right. split; [exact H|]. intros [|i] t; discriminate.
    + intros [[i [t [_ [E _]]]]|[H _]]; [destruct i; discriminate|exact H].
  - cbn [build_fuel_cols].
    set (d' := match c with Text s => dict_set d (PyStr.strip s) j | _ => d end).
    assert (ND' : NoDup (map fst d')).
    { unfold d'. destruct c; auto. apply dict_set_NoDup, ND. }
    destruct (IH (S j) d' ND') as [N Spec]. split; [exact N|].
    intros n v. rewrite Spec. clear Spec IH N. split.
    + intros [[i [t [-> [Hi [Ht Hlast]]]]]|[Hin Hnone]].
      * left. exists (S i), t. repeat split; [lia|exact Hi|exact Ht|].
        intros [|i'] t' Hlt Hi'; [lia|]. apply (Hlast i' t'); [lia|exact Hi'].
      * unfold d' in Hin. destruct c as [|s| |].
        -- right. split; [exact Hin|]. intros [|i] t Hi; [discriminate|eauto].
        -- apply (@dict_set_In _ _ _ ND) in Hin.
           destruct Hin as [[-> ->]|[Hn Hin]].
           ++ left. exists 0, s. repeat split; [lia|].
              intros [|i'] t' Hlt Hi'; [lia|]. eauto.
           ++ right. split; [exact Hin|].
              intros [|i] t Hi; [|eauto]. simpl in Hi. injection Hi as <-.
              auto.
        -- right. split; [exact Hin|]. intros [|i] t Hi; [discriminate|eauto].
        -- right. split; [exact Hin|]. intros [|i] t Hi; [discriminate|eauto].
    + intros [[i [t [-> [Hi [Ht Hlast]]]]]|[Hin Hnone]].
      * destruct i as [|i].
        -- simpl in Hi. injection Hi as ->. right. split.
           ++ unfold d'. apply (@dict_set_In _ _ _ ND). left.
              split; [auto|lia].
           ++ intros i t' Hi'. apply (Hlast (S i) t'); [lia|exact Hi'].
        -- left. exists i, t. repeat split; [lia|exact Hi|exact Ht|].
           intros i' t' Hlt Hi'. apply (Hlast (S i') t'); [lia|exact Hi'].
      * right. split.
        -- unfold d'. destruct c as [|s| |]; auto.
           apply (@dict_set_In _ _ _ ND). right. split; [|exact Hin].
           intros ->. apply (Hnone 0 s); reflexivity.
        -- intros i t Hi. apply (Hnone (S i) t). exact Hi.
Qed.

Lemma fuel_cols_of_row_NoDup (hr : row) : NoDup (map fst (fuel_cols_of_row hr)).
Proof. apply build_fuel_cols_spec. constructor. Qed.

Lemma fuel_cols_of_row_In (hr : row) (n : string) (j : nat) :
  In (n, j) (fuel_cols_of_row hr) <-> is_rightmost hr n j.
Proof.
  unfold fuel_cols_of_row, is_rightmost.
  destruct (@build_fuel_cols_spec (skipn 3 hr) 3 [] (NoDup_nil _))
    as [_ Spec].
  rewrite Spec. clear Spec. split.
  - intros [[i [t [-> [Hi [Ht Hlast]]]]]|[[] _]].
    rewrite nth_error_skipn in Hi. split; [lia|]. split; [eauto|].
    intros j' t' Hlt Hj'. apply (Hlast (j' - 3) t'); [lia|].
    rewrite nth_error_skipn. replace (3 + (j' - 3)) with j' by lia. exact Hj'.
  - intros [Hj [[t [Hi Ht]] Hlast]]. left. exists (j - 3), t.
    rewrite nth_error_skipn. replace (3 + (j - 3)) with j by lia.
    repeat split; auto.
    intros i' t' Hlt Hi'. rewrite nth_error_skipn in Hi'.
    apply (Hlast (3 + i') t'); [lia|exact Hi'].
Qed.

(** ** The parser: what one row does to the scan *)

Lemma Forall2_In_r (A B : Type) (R : A -> B -> Prop) (l : list A) (l' : list B) :
  Forall2 R l l' -> forall y, In y l' -> exists x, In x l /\ R x y.
Proof.
  induction 1 as [|x y l l' H _ IH]; simpl; [tauto|].
  intros z [<-|Hz]; [eauto|].
  destruct (IH z Hz) as [x' [Hx' Rx']]. eauto.
Qed.

(** A row either leaves the records alone or, being a data row read under
    an active state and header, appends what the loop over the fuel columns
    emits. *)
Lemma parse_row_emits (host : Host) (s s' : scan) (r : row) :
  parse_row host s r = Ok s' ->
  (data_records s' = data_records s)
  \/ exists st h d term,
       nth_error r 0 = Some (Stamp d)
       /\ current_state s = Some st /\ header_row s = Some h
       /\ header_row s' = Some h
       /\ emit_fuels host st (dt_date d) term r (fuel_cols h) (data_records s)
          = Ok (data_records s').
Proof.
  unfold parse_row, getitem.
  destruct (nth_error r 0) as [c0|] eqn:E0; [|discriminate]. cbn [bind].
  destruct (isna c0); [intros E; injection E as <-; auto|].
  destruct (is_section_header r c0).
  { destruct c0; try (intros E; injection E as <-; auto).
    destruct (PyStr.mem s0 banner_lines); intros E; injection E as <-; auto. }
  destruct (nth_error r 2) as [c2|]; [|discriminate]. cbn [bind].
  destruct (is_terminal_header c2); [intros E; injection E as <-; auto|].
  unfold data_context.
  destruct (current_state s) as [st|] eqn:Est;
    [|intros E; injection E as <-; auto].
  destruct (header_row s) as [h|] eqn:Eh;
    [|intros E; injection E as <-; auto].
  destruct c0 as [|t|d|x]; try (intros E; injection E as <-; auto).
  destruct (PyStr.truthy st); [|intros E; injection E as <-; auto].
  destruct (nth_error r (terminal_col h)) as [ct|]; [|discriminate].
  cbn [bind]. cbv zeta.
  destruct (terminal_ok (terminal_of host ct));
    [|intros E; injection E as <-; auto].
  destruct (terminal_of host ct) as [term|];
    [|intros E; injection E as <-; auto].
  destruct (emit_fuels host st (dt_date d) term r (fuel_cols h) (data_records s))
    as [recs|e] eqn:Ee; [|discriminate].
  cbn [bind]. intros E; injection E as <-. right.
  exists st, h, d, term. simpl. auto.
Qed.

(** C10.  A recognised column-header row in which several string cells from
    column 3 on trim to the same fuel-type name yields a mapping with one
    entry per name, bound to the rightmost column carrying that name; while
    that mapping is active, a row adds at most one record per fuel-type
    name, and the price of each record is read from that rightmost
    column. *)
Theorem duplicate_fuel_names_keep_rightmost_column :
  forall (host : Host) (s : scan) (hr : row) (c0 c2 : cell),
    nth_error hr 0 = Some c0 -> isna c0 = false ->
    is_section_header hr c0 = false ->
    nth_error hr 2 = Some c2 -> is_terminal_header c2 = true ->
    exists s1,
      parse_row host s hr = Ok s1
      /\ header_row s1 = Some (mk_header 0 2 (fuel_cols_of_row hr))
      /\ NoDup (map fst (fuel_cols_of_row hr))
      /\ (forall name j, In (name, j) (fuel_cols_of_row hr)
                         <-> is_rightmost hr name j)
      /\ forall (s2 s3 : scan) (r : row),
           header_row s2 = header_row s1 ->
           parse_row host s2 r = Ok s3 ->
           exists recs,
             data_records s3 = data_records s2 ++ recs
             /\ NoDup (map fuel_type recs)
             /\ forall rec, In rec recs ->
                  exists j c,
                    is_rightmost hr (fuel_type rec) j
                    /\ nth_error r j = Some c /\ isna c = false
                    /\ py_float host c = Ok (price_cents_per_litre rec).
Proof.
  intros host s hr c0 c2 H0 Hna Hsec H2 Hth.
  eexists. split.
  { unfold parse_row, getitem. rewrite H0. cbn [bind]. rewrite Hna, Hsec, H2.
    cbn [bind]. rewrite Hth. reflexivity. }
  cbn [header_row]. split; [reflexivity|].
  split; [apply fuel_cols_of_row_NoDup|].
  split; [apply fuel_cols_of_row_In|].
  intros s2 s3 r Hh Hp.
  destruct (parse_row_emits _ _ _ Hp)
    as [E|[st [h [d [term [_ [_ [Eh [_ Ee]]]]]]]]].
  - exists []. rewrite app_nil_r. split; [exact E|].
    split; [constructor|]. intros rec [].
  - rewrite Hh in Eh. injection Eh as <-. cbn [fuel_cols] in Ee.
    destruct (emit_fuels_records _ _ _ _ _ _ _ Ee) as [recs [-> F]].
    exists recs. split; [reflexivity|]. split.
    + rewrite (record_of_column_fuels F).
      apply filter_keeps_distinct_names, fuel_cols_of_row_NoDup.
    + intros rec Hrec.
      destruct (Forall2_In_r F _ Hrec) as [[fuel col] [Hfc Hof]].
      apply filter_In in Hfc. destruct Hfc as [Hfc _].
      destruct Hof as (_ & _ & _ & Ef & c & Hc & Hn & Hp').
      simpl in Ef, Hc. exists col, c. split; [|auto].
      apply fuel_cols_of_row_In. rewrite Ef. exact Hfc.
Qed.

(** ** The parser: when it returns *)

Lemma fuel_cols_of_row_range (r : row) :
  Forall (fun fc => 3 <= snd fc < List.length r) (fuel_cols_of_row r).
Proof.
  apply Forall_forall. intros [n j] Hin. simpl.
  apply fuel_cols_of_row_In in Hin. destruct Hin as [Hj [[t [Hn _]] _]].
  split; [exact Hj|]. apply nth_error_Some. congruence.
Qed.

Lemma parse_row_total (host : Host) (w : nat) (s : scan) (r : row) :
  3 <= w -> List.length r = w -> prices_convertible host r ->
  header_in_range w s ->
  exists s', parse_row host s r = Ok s' /\ header_in_range w s'.
Proof.
  intros Hw Hlen Hpr Hinv.
  destruct r as [|c0 [|c1 [|c2 rest]]]; simpl in Hlen; try lia.
  unfold parse_row, getitem. cbn [nth_error bind].
  destruct (isna c0); [eauto|].
  destruct (is_section_header (c0 :: c1 :: c2 :: rest) c0).
  { destruct c0; eauto. destruct (PyStr.mem s0 banner_lines); eauto. }
  destruct (is_terminal_header c2).
  { eexists. split; [reflexivity|]. intros h E. cbn [header_row] in E.
    injection E as <-. cbn [terminal_col fuel_cols]. split; [lia|].
    rewrite <- Hlen. apply (fuel_cols_of_row_range (c0 :: c1 :: c2 :: rest)). }
  unfold data_context.
  destruct (current_state s) as [st|]; [|eauto].
  destruct (header_row s) as [h|] eqn:Eh; [|eauto].
  destruct c0 as [|t|d|x]; eauto.
  destruct (PyStr.truthy st); [|eauto].
  destruct (Hinv h Eh) as [Ht Hf].
  destruct (nth_error (Stamp d :: c1 :: c2 :: rest) (terminal_col h))
    as [ct|] eqn:Ect.
  2:{ apply nth_error_None in Ect. simpl in Ect. lia. }
  cbn [bind]. cbv zeta.
  destruct (terminal_ok (terminal_of host ct)); [|eauto].
  destruct (terminal_of host ct) as [term|]; [|eauto].
  destruct (@emit_fuels_total host st (dt_date d) term
              (Stamp d :: c1 :: c2 :: rest) (fuel_cols h)) with
      (acc := data_records s) as [out E].
  { apply Forall_forall. intros fc Hfc.
    rewrite Forall_forall in Hf. specialize (Hf fc Hfc).
    destruct (nth_error (Stamp d :: c1 :: c2 :: rest) (snd fc)) as [c|] eqn:Ec.
    - exists c. split; [exact Ec|]. apply (Hpr d (snd fc) c); auto. lia.
    - apply nth_error_None in Ec. simpl in Ec. lia. }
  rewrite E. cbn [bind]. eexists. split; [reflexivity|].
  intros h' E'. cbn [header_row] in E'. apply Hinv. congruence.
Qed.

Lemma parse_rows_total (host : Host) (w : nat) (rows : list row) :
  3 <= w ->
  Forall (fun r => List.length r = w) rows ->
  Forall (prices_convertible host) rows ->
  forall s, header_in_range w s -> exists s', parse_rows host s rows = Ok s'.
Proof.
  intros Hw Hlen Hpr. induction rows as [|r rest IH]; simpl; intros s Hinv.
  - eauto.
  - apply Forall_cons_iff in Hlen. destruct Hlen as [Hl Hlen'].
    apply Forall_cons_iff in Hpr. destruct Hpr as [Hp Hpr'].
    destruct (@parse_row_total host w s r Hw Hl Hp Hinv) as [s1 [E Hinv1]].
    rewrite E. cbn [bind]. apply IH; auto.
Qed.

(** Rows that do not start with a date never add a record. *)
Lemma parse_rows_no_dates (host : Host) (rows : list row) :
  (forall r d, In r rows -> nth_error r 0 <> Some (Stamp d)) ->
  forall s s', parse_rows host s rows = Ok s' ->
               data_records s' = data_records s.
Proof.
  induction rows as [|r rest IH]; simpl; intros Hnd s s' E.
  - injection E as <-. reflexivity.
  - destruct (parse_row host s r) as [s1|e] eqn:E1; [|discriminate].
    cbn [bind] in E. rewrite (IH (fun r' d' H => Hnd r' d' (or_intror H)) _ _ E).
    destruct (parse_row_emits _ _ _ E1) as [R|[st [h [d [term [H0 _]]]]]];
      [exact R|].
    exfalso. apply (Hnd r d); auto.
Qed.

(** C2, as the code has it.  On a frame whose rows all have the same number
    of columns, at least three, and in which every cell from column 3 on of
    a row starting with a date is empty or accepted by [float()], the
    parser returns normally; a row that is neither a section header, nor a
    column header, nor a data row read in context leaves the scan as it
    was; and a frame with no row starting with a date yields the empty
    sequence. *)
Theorem parse_returns_on_well_shaped_frames :
  forall (host : Host) (w : nat) (df_raw : list row),
    3 <= w ->
    Forall (fun r => List.length r = w) df_raw ->
    Forall (prices_convertible host) df_raw ->
    (exists recs, parse_bp_pricing host df_raw = Ok recs)
    /\ (forall (s : scan) (r : row) (c0 c2 : cell),
           nth_error r 0 = Some c0 -> nth_error r 2 = Some c2 ->
           is_section_header r c0 = false ->
           is_terminal_header c2 = false ->
           data_context s c0 = None ->
           parse_row host s r = Ok s)
    /\ ((forall r d, In r df_raw -> nth_error r 0 <> Some (Stamp d)) ->
        parse_bp_pricing host df_raw = Ok []).
Proof.
  intros host w df_raw Hw Hlen Hpr.
  assert (T : exists s', parse_rows host scan0 df_raw = Ok s').
  { apply (@parse_rows_total host w df_raw Hw Hlen Hpr).
    intros h E. discriminate. }
  destruct T as [s' E]. unfold parse_bp_pricing. rewrite E. cbn [bind].
  split; [eauto|]. split.
  - intros s r c0 c2 H0 H2 Hsec Hth Hctx.
    unfold parse_row, getitem. rewrite H0. cbn [bind].
    destruct (isna c0); [reflexivity|].
    rewrite Hsec, H2. cbn [bind]. rewrite Hth, Hctx. reflexivity.
  - intros Hnd. rewrite (@parse_rows_no_dates host df_raw Hnd _ _ E).
    reflexivity.
Qed.

(** A price cell that [float()] rejects stops the parser, whatever the
    host: a string it cannot read is a [ValueError], a timestamp a
    [TypeError]. *)
Lemma price_cell_rejected (host : Host) (st : string) (d : date)
      (term : string) (r : row) (fuel : string) (col : nat) (rest : dict)
      (acc : list PriceRecord) (c : cell) (e : exn) :
  nth_error r col = Some c -> isna c = false -> py_float host c = Raise e ->
  emit_fuels host st d term r ((fuel, col) :: rest) acc = Raise e.
Proof.
  intros Hc Hn Hf. simpl. unfold getitem. rewrite Hc. cbn [bind].
  rewrite Hn, Hf. reflexivity.
Qed.

(** ** The scenario of the specification *)

(** C3, as the code has it.  On the three-row grid whose header row reads
    "Effective Date" in its first cell the parser returns exactly the two
    records of Queensland, 2024-01-10, Eagle Farm: Unleaded 91 at 189.9 and
    Diesel at 195.5, in that order.  On the grid as written, whose header
    row starts with an empty cell, that row is skipped with the empty rows,
    no header mapping becomes active and the parser returns no record. *)
Theorem scenario_needs_a_first_cell_in_the_header_row :
  forall host : Host,
    parse_bp_pricing host scenario_sheet
    = Ok [ eagle_farm "Unleaded 91" 189.9 (now host 0);
           eagle_farm "Diesel" 195.5 (now host 1) ]
    /\ parse_bp_pricing host scenario_grid = Ok []
    /\ parse_bp_pricing host scenario_frame = Ok [].
Proof. intros host. repeat split; reflexivity. Qed.

(** ** Examples *)

Lemma scenario_grid_yields_no_record :
  parse_bp_pricing example_host scenario_grid = Ok []
  /\ parse_bp_pricing example_host scenario_frame = Ok [].
Proof. split; reflexivity. Qed.

Lemma parse_raises_on_malformed_rows :
  parse_bp_pricing example_host narrow_frame = Raise (KeyError 2)
  /\ parse_bp_pricing example_host bad_price_frame = Raise TypeError.
Proof. split; reflexivity. Qed.

Lemma parse_returns_on_well_shaped_frames_witness :
  (exists recs, parse_bp_pricing example_host scenario_sheet = Ok recs)
  /\ (forall (s : scan) (r : row) (c0 c2 : cell),
         nth_error r 0 = Some c0 -> nth_error r 2 = Some c2 ->
         is_section_header r c0 = false ->
         is_terminal_header c2 = false ->
         data_context s c0 = None ->
         parse_row example_host s r = Ok s)
  /\ ((forall r d, In r scenario_sheet -> nth_error r 0 <> Some (Stamp d)) ->
      parse_bp_pricing example_host scenario_sheet = Ok []).
Proof.
  apply (@parse_returns_on_well_shaped_frames example_host 5 scenario_sheet).
  - lia.
  - repeat constructor.
  - unfold scenario_sheet.
    repeat (apply Forall_cons; [intros d j c H0 Hj Hc|]); [| |idtac|apply Forall_nil];
      try discriminate.
    do 3 (destruct j as [|j]; [lia|]).
    destruct j as [|[|j]]; simpl in Hc.
    + injection Hc as <-. right. eexists. reflexivity.
    + injection Hc as <-. right. eexists. reflexivity.
    + destruct j; discriminate.
Defined.

Lemma partial_row_yields_two_records_witness :
  exists r1 r2,
    parse_row example_host active_scan partial_row
    = Ok (mk_scan (current_state active_scan) (header_row active_scan)
                  (data_records active_scan ++ [r1; r2]))
    /\ Forall2 (record_of_column example_host "Queensland" (dt_date jan10)
                                 "Eagle Farm" partial_row)
               (filter (populated partial_row)
                       [("Unleaded 91", 3); ("Premium", 4); ("Diesel", 5)])
               [r1; r2].
Proof.
  apply (@partial_row_yields_two_records example_host active_scan partial_row
           "Queensland" (mk_header 0 2 [("Unleaded 91", 3); ("Premium", 4); ("Diesel", 5)])
           jan10 (Text "Eagle Farm") (Text "Eagle Farm") "Eagle Farm");
    try reflexivity.
  repeat constructor; eexists; (split; [reflexivity|]);
    solve [left; reflexivity | right; eexists; reflexivity].
Defined.

Lemma duplicate_fuel_names_keep_rightmost_column_witness :
  exists s1,
    parse_row example_host scan0 twice_diesel = Ok s1
    /\ header_row s1 = Some (mk_header 0 2 (fuel_cols_of_row twice_diesel))
    /\ NoDup (map fst (fuel_cols_of_row twice_diesel))
    /\ (forall name j, In (name, j) (fuel_cols_of_row twice_diesel)
                       <-> is_rightmost twice_diesel name j)
    /\ forall (s2 s3 : scan) (r : row),
         header_row s2 = header_row s1 ->
         parse_row example_host s2 r = Ok s3 ->
         exists recs,
           data_records s3 = data_records s2 ++ recs
           /\ NoDup (map fuel_type recs)
           /\ forall rec, In rec recs ->
                exists j c,
                  is_rightmost twice_diesel (fuel_type rec) j
                  /\ nth_error r j = Some c /\ isna c = false
                  /\ py_float example_host c = Ok (price_cents_per_litre rec).
Proof.
  apply (@duplicate_fuel_names_keep_rightmost_column example_host scan0
           twice_diesel (Text "Effective Date") (Text "Terminal"));
    reflexivity.
Defined.

Example twice_diesel_mapping :
  fuel_cols_of_row twice_diesel = [("Diesel", 5); ("ULP", 4)].
Proof. reflexivity. Qed.


Lemma unchanged_file_short_circuit_witness :
  run_end (main example_host unchanged_world) = Exit 0
  /\ run_world (main example_host unchanged_world) = unchanged_world
  /\ lookup_file (entries (run_world (main example_host unchanged_world)))
                 history_file
     = lookup_file (entries unchanged_world) history_file
  /\ lookup_file (entries (run_world (main example_host unchanged_world)))
                 latest_file
     = lookup_file (entries unchanged_world) latest_file
  /\ lookup_file (entries (run_world (main example_host unchanged_world)))
                 hash_file
     = Some stored_token.
Proof.
  apply (@unchanged_file_short_circuit example_host unchanged_world
           workbook stored_token); reflexivity.
Defined.

Lemma fatal_errors_write_nothing_witness :
  (run_end (main example_host no_input_world) = Exit 1
   /\ exit_code (run_end (main example_host no_input_world)) <> 0%Z
   /\ run_world (main example_host no_input_world) = no_input_world)
  /\ (run_end (main example_host empty_extraction_world) = Exit 1
      /\ exit_code (run_end (main example_host empty_extraction_world)) <> 0%Z
      /\ run_world (main example_host empty_extraction_world)
         = empty_extraction_world).
Proof.
  split.
  - apply (@fatal_errors_write_nothing example_host no_input_world).
    left. reflexivity.
  - apply (@fatal_errors_write_nothing example_host empty_extraction_world).
    right. exists workbook. split; [reflexivity|]. split; [|reflexivity].
    right. eexists. split; [reflexivity|]. discriminate.
Defined.

Example first_run_keeps_repeated_rows :
  bind (parse_bp_pricing example_host repeated_row_sheet)
       (fun df_new => Ok (map values_of (reconcile None df_new)))
  = Ok [ (("Queensland", mk_date 2024 1 10, "Eagle Farm", "Diesel"), 100%float);
         (("Queensland", mk_date 2024 1 10, "Eagle Farm", "Diesel"), 105%float) ].
Proof. reflexivity. Qed.

(** * Further properties *)

(** ** [get_file_hash] *)

Lemma str_app_nil_r (s : string) : (s ++ EmptyString)%string = s.
Proof. induction s as [|c t IH]; simpl; congruence. Qed.

Lemma str_app_assoc (a b c : string) :
  ((a ++ b) ++ c)%string = (a ++ (b ++ c))%string.
Proof. induction a as [|x a IH]; simpl; congruence. Qed.

Lemma read_bytes_splits (n : nat) :
  forall unread,
    (fst (read_bytes n unread) ++ snd (read_bytes n unread))%string = unread.
Proof.
  induction n as [|k IH]; intros [|c t]; simpl; try reflexivity.
  specialize (IH t). destruct (read_bytes k t) as [chunk rest]. simpl in *.
  congruence.
Qed.

(** An empty chunk means the end of the file, when at least one byte is
    asked for. *)
Lemma read_bytes_empty (n : nat) (unread : string) :
  0 < n -> fst (read_bytes n unread) = EmptyString -> unread = EmptyString.
Proof.
  destruct n as [|k]; [lia|]. intros _. destruct unread as [|c t]; simpl; auto.
  destruct (read_bytes k t). discriminate.
Qed.

Lemma read_bytes_progress (n : nat) :
  forall unread,
    fst (read_bytes n unread) <> EmptyString ->
    String.length (snd (read_bytes n unread)) < String.length unread.
Proof.
  induction n as [|k IH]; intros [|c t]; simpl; try congruence.
  intros _. specialize (IH t). destruct (read_bytes k t) as [chunk rest] eqn:E.
  simpl in *. destruct chunk as [|c' chunk'].
  - pose proof (read_bytes_splits k t) as S. rewrite E in S. simpl in S.
    subst rest. lia.
  - assert (String.length rest < String.length t) by (apply IH; discriminate).
    lia.
Qed.

Lemma hash_chunks_feeds_everything (size : nat) :
  0 < size ->
  forall fuel unread hash_md5,
    String.length unread < fuel ->
    hash_chunks size fuel unread hash_md5 = Some (hash_md5 ++ unread)%string.
Proof.
  intros Hsize. induction fuel as [|fuel IH]; intros unread h Hfuel; [lia|].
  simpl.
  pose proof (read_bytes_splits size unread) as Hsplit.
  pose proof (@read_bytes_empty size unread Hsize) as Hend.
  pose proof (@read_bytes_progress size unread) as Hprog.
  destruct (read_bytes size unread) as [chunk rest]. simpl in *.
  destruct chunk as [|c chunk].
  - rewrite (Hend eq_refl), str_app_nil_r. reflexivity.
  - rewrite IH.
    + rewrite str_app_assoc, Hsplit. reflexivity.
    + assert (String.length rest < String.length unread)
        by (apply Hprog; discriminate).
      lia.
Qed.

(** X1.  Reading the file in chunks of 4096 bytes until the first empty
    chunk feeds the hash object every byte of the file, in order: once the
    number of reads allowed exceeds the length of the file, the loop ends
    and the result is the hexadecimal MD5 digest of the whole content. *)
Theorem get_file_hash_reads_whole_file :
  forall (host : Host) (data : string) (fuel : nat),
    String.length data < fuel ->
    get_file_hash_by_chunks host data fuel = Some (get_file_hash host data).
Proof.
  intros host data fuel Hfuel. unfold get_file_hash_by_chunks.
  rewrite hash_chunks_feeds_everything; [reflexivity|lia|exact Hfuel].
Qed.

Lemma get_file_hash_reads_whole_file_witness :
  get_file_hash_by_chunks example_host "workbook-bytes" 15
  = Some (get_file_hash example_host "workbook-bytes").
Proof.
  apply (@get_file_hash_reads_whole_file example_host "workbook-bytes" 15).
  simpl. lia.
Defined.

Lemma hex_value_digit (n : nat) : n < 16 -> hex_value (hex_digit n) = n.
Proof.
  intros H. do 16 (destruct n as [|n]; [reflexivity|]). lia.
Qed.

Lemma hex_injective (a : string) :
  forall b, hex a = hex b -> a = b.
Proof.
  induction a as [|x a IH]; intros [|y b]; cbn [hex]; try discriminate; auto.
  intros E.
  assert (E1 : hex_digit (nat_of_ascii x / 16) = hex_digit (nat_of_ascii y / 16))
    by congruence.
  assert (E2 : hex_digit (nat_of_ascii x mod 16)
               = hex_digit (nat_of_ascii y mod 16)) by congruence.
  assert (E3 : hex a = hex b) by congruence.
  clear E.
  assert (Bx : nat_of_ascii x < 256) by apply nat_ascii_bounded.
  assert (By : nat_of_ascii y < 256) by apply nat_ascii_bounded.
  assert (Hx1 : nat_of_ascii x / 16 < 16)
    by (apply Nat.Div0.div_lt_upper_bound; lia).
  assert (Hy1 : nat_of_ascii y / 16 < 16)
    by (apply Nat.Div0.div_lt_upper_bound; lia).
  assert (Hx2 : nat_of_ascii x mod 16 < 16) by (apply Nat.mod_upper_bound; lia).
  assert (Hy2 : nat_of_ascii y mod 16 < 16) by (apply Nat.mod_upper_bound; lia).
  apply (f_equal hex_value) in E1, E2.
  rewrite !hex_value_digit in E1, E2 by assumption.
  f_equal; [|apply IH; exact E3].
  rewrite <- (ascii_nat_embedding x), <- (ascii_nat_embedding y). f_equal.
  rewrite (Nat.div_mod_eq (nat_of_ascii x) 16),
          (Nat.div_mod_eq (nat_of_ascii y) 16).
  congruence.
Qed.

Lemma hex_length (digest : string) :
  String.length (hex digest) = 2 * String.length digest.
Proof.
  induction digest as [|c t IH]; [reflexivity|].
  cbn [hex String.length]. rewrite IH. lia.
Qed.

Lemma hex_digits_only (digest : string) :
  forall c, In c (list_ascii_of_string (hex digest)) -> hex_value c < 16.
Proof.
  induction digest as [|x t IH]; [simpl; tauto|].
  cbn [hex list_ascii_of_string In].
  assert (Bx : nat_of_ascii x < 256) by apply nat_ascii_bounded.
  intros c [<-|[<-|Hc]]; [| |auto].
  - rewrite hex_value_digit; apply Nat.Div0.div_lt_upper_bound; lia.
  - rewrite hex_value_digit; apply Nat.mod_upper_bound; lia.
Qed.

(** X2.  The token is twice as long as the digest and made of the digits
    0-9 and a-f only, and two files get the same token exactly when MD5
    gives them the same digest: the hexadecimal form loses nothing. *)
Theorem get_file_hash_is_a_faithful_token :
  forall (host : Host) (data data' : string),
    String.length (get_file_hash host data)
    = 2 * String.length (md5_digest host data)
    /\ (forall c, In c (list_ascii_of_string (get_file_hash host data)) ->
                  hex_value c < 16)
    /\ (get_file_hash host data = get_file_hash host data'
        <-> md5_digest host data = md5_digest host data').
Proof.
  intros host data data'. unfold get_file_hash. split; [apply hex_length|].
  split; [apply hex_digits_only|]. split.
  - apply hex_injective.
  - intros ->. reflexivity.
Qed.

(** ** The directory *)

Lemma lookup_store_same (es : list (string * file)) (name : string) (f : file) :
  lookup_file (store_file es name f) name = Some f.
Proof.
  induction es as [|[n g] t IH]; simpl.
  - rewrite String.eqb_refl. reflexivity.
  - destruct (String.eqb n name) eqn:E; simpl; rewrite E; auto.
Qed.

Lemma lookup_store_other (es : list (string * file)) (name other : string)
      (f : file) :
  other <> name ->
  lookup_file (store_file es name f) other = lookup_file es other.
Proof.
  intros Hne. induction es as [|[n g] t IH]; simpl.
  - apply String.eqb_neq in Hne. rewrite String.eqb_sym, Hne. reflexivity.
  - destruct (String.eqb_spec n name) as [->|Hn]; simpl.
    + apply String.eqb_neq in Hne. rewrite String.eqb_sym, Hne. reflexivity.
    + destruct (String.eqb n other); auto.
Qed.

Lemma store_keeps_workbooks (es : list (string * file)) (name : string)
      (f : file) :
  is_xlsx name = false ->
  filter (fun e => is_xlsx (fst e)) (store_file es name f)
  = filter (fun e => is_xlsx (fst e)) es.
Proof.
  intros Hx. induction es as [|[n g] t IH]; simpl.
  - rewrite Hx. reflexivity.
  - destruct (String.eqb_spec n name) as [->|Hn]; simpl.
    + rewrite Hx. reflexivity.
    + rewrite IH. reflexivity.
Qed.

Lemma write_keeps_selected_input (w : World) (name data : string) :
  is_xlsx name = false ->
  selected_input (write_file w name data) = selected_input w.
Proof.
  intros Hx. unfold selected_input, xlsx_files, write_file. simpl.
  rewrite store_keeps_workbooks by exact Hx. reflexivity.
Qed.

Lemma after_processing_selected_input (host : Host) (w : World)
      (current_hash : string) (df : list PriceRecord) :
  selected_input (after_processing host w current_hash df) = selected_input w.
Proof.
  unfold after_processing.
  rewrite !write_keeps_selected_input by reflexivity. reflexivity.
Qed.

Lemma after_processing_lookup (host : Host) (w : World)
      (current_hash : string) (df : list PriceRecord) :
  let w' := after_processing host w current_hash df in
  lookup_file (entries w') history_file
  = Some (mk_file (os_time w) (to_csv host df))
  /\ lookup_file (entries w') latest_file
     = Some (mk_file (os_time w) (to_csv host (df_latest df)))
  /\ lookup_file (entries w') hash_file
     = Some (mk_file (os_time w) current_hash)
  /\ forall name, ~ In name output_files ->
                  lookup_file (entries w') name = lookup_file (entries w) name.
Proof.
  unfold after_processing, write_file. simpl. repeat split.
  - rewrite !lookup_store_other by (apply String.eqb_neq; reflexivity).
    apply lookup_store_same.
  - rewrite lookup_store_other by (apply String.eqb_neq; reflexivity).
    apply lookup_store_same.
  - apply lookup_store_same.
  - intros name Hout. unfold output_files in Hout. simpl in Hout.
    rewrite !lookup_store_other; [reflexivity| | |]; intros ->; tauto.
Qed.

(** ** The selected input *)

Lemma py_max_by_first_greatest (A : Type) (key : A -> Z) (l : list A) :
  forall x,
    exists l1 l2,
      x :: l = l1 ++ py_max_by key x l :: l2
      /\ (forall y, In y l1 -> (key y < key (py_max_by key x l))%Z)
      /\ (forall y, In y l2 -> (key y <= key (py_max_by key x l))%Z).
Proof.
  induction l as [|y t IH]; intros x; simpl.
  - exists [], []. simpl. tauto.
  - destruct (Z.ltb_spec (key x) (key y)) as [Hlt|Hge].
    + destruct (IH y) as [l1 [l2 [E [H1 H2]]]].
      exists (x :: l1), l2. split; [simpl; rewrite E; reflexivity|].
      split; [|exact H2].
      intros z [<-|Hz]; [|auto].
      assert (Hy : In y (l1 ++ py_max_by key y t :: l2))
        by (rewrite <- E; left; reflexivity).
      apply in_app_or in Hy. destruct Hy as [Hy|[Hy|Hy]].
      * specialize (H1 y Hy). lia.
      * rewrite Hy. exact Hlt.
      * specialize (H2 y Hy). lia.
    + destruct (IH x) as [l1 [l2 [E [H1 H2]]]].
      destruct l1 as [|x' l1]; simpl in E; injection E as Ex Et.
      * exists [], (y :: l2). simpl. rewrite <- Ex, Et.
        split; [reflexivity|]. split; [tauto|].
        intros z [<-|Hz]; [lia|]. rewrite Ex. auto.
      * subst x'. exists (x :: y :: l1), l2. simpl.
        split; [do 2 f_equal; exact Et|]. split; [|exact H2].
        assert (Hx : (key x < key (py_max_by key x t))%Z)
          by (apply H1; left; reflexivity).
        intros z [<-|[<-|Hz]]; [exact Hx|lia|].
        apply H1. right. exact Hz.
Qed.

(** X3.  The input of the run is a file of the directory whose name ends
    in .xlsx and not in .html.xlsx, no such file is more recent (by
    creation time), and among the files of the listing as recent as it, it
    comes first. *)
Theorem selected_input_is_newest_workbook :
  forall (w : World) (input : string * file),
    selected_input w = Some input ->
    In input (entries w)
    /\ is_xlsx (fst input) = true
    /\ (forall e, In e (entries w) -> is_xlsx (fst e) = true ->
                  (ctime (snd e) <= ctime (snd input))%Z)
    /\ exists before after,
         xlsx_files w = before ++ input :: after
         /\ forall e, In e before -> (ctime (snd e) < ctime (snd input))%Z.
Proof.
  intros w input Hsel. unfold selected_input in Hsel.
  destruct (xlsx_files w) as [|x rest] eqn:Ex; [discriminate|].
  injection Hsel as Hsel.
  destruct (py_max_by_first_greatest (fun e => ctime (snd e)) rest x)
    as [l1 [l2 [E [H1 H2]]]].
  rewrite Hsel in E, H1, H2.
  assert (Hin : In input (xlsx_files w)).
  { rewrite Ex, E. apply in_or_app. right. left. reflexivity. }
  unfold xlsx_files in Hin. apply filter_In in Hin. destruct Hin as [Hin Hx].
  split; [exact Hin|]. split; [exact Hx|]. split.
  - intros e He Hxe.
    assert (He' : In e (x :: rest)).
    { rewrite <- Ex. unfold xlsx_files. apply filter_In. auto. }
    rewrite E in He'. apply in_app_or in He'.
    destruct He' as [He'|[<-|He']]; [specialize (H1 e He'); lia|lia|auto].
  - exists l1, l2. auto.
Qed.

Lemma selected_input_is_newest_workbook_witness :
  In workbook (entries unchanged_world)
  /\ is_xlsx (fst workbook) = true
  /\ (forall e, In e (entries unchanged_world) -> is_xlsx (fst e) = true ->
                (ctime (snd e) <= ctime (snd workbook))%Z)
  /\ exists before after,
       xlsx_files unchanged_world = before ++ workbook :: after
       /\ forall e, In e before -> (ctime (snd e) < ctime (snd workbook))%Z.
Proof.
  apply (@selected_input_is_newest_workbook unchanged_world workbook).
  reflexivity.
Defined.

(** ** The run, case by case *)

(** A run that gets past change detection with a non-empty frame and a
    readable history performs the three writes and ends normally. *)
Lemma main_processing (host : Host) (w : World) (input : string * file)
      (df_new : list PriceRecord) (history : option (list PriceRecord)) :
  selected_input w = Some input ->
  unchanged w (get_file_hash host (content (snd input))) = false ->
  parsed_input host input = Ok df_new -> df_new <> [] ->
  load_history host w = Ok history ->
  run_end (main host w) = Exit 0
  /\ run_world (main host w)
     = after_processing host w (get_file_hash host (content (snd input)))
                        (reconcile history df_new).
Proof.
  intros Hsel Hch Hparse Hne Hhist. unfold main. rewrite Hsel, Hch.
  unfold parsed_input in Hparse. rewrite Hparse.
  destruct df_new as [|r rs]; [congruence|].
  rewrite Hhist. simpl. auto.
Qed.

(** Every run is of one of three kinds: it ends without exit code 0, it
    finds the file unchanged, or it processes the file. *)
Lemma main_cases (host : Host) (w : World) :
  (run_end (main host w) <> Exit 0 /\ run_world (main host w) = w)
  \/ (exists input,
         selected_input w = Some input
         /\ unchanged w (get_file_hash host (content (snd input))) = true
         /\ main host w
            = mk_run (Exit 0) w
                     [FileUnchanged (get_file_hash host (content (snd input)))])
  \/ (exists input df_new history,
         selected_input w = Some input
         /\ unchanged w (get_file_hash host (content (snd input))) = false
         /\ parsed_input host input = Ok df_new /\ df_new <> []
         /\ load_history host w = Ok history).
Proof.
  unfold main. destruct (selected_input w) as [input|] eqn:Hsel.
  2:{ left. simpl. split; [discriminate|reflexivity]. }
  destruct (unchanged w (get_file_hash host (content (snd input)))) eqn:Hch.
  { right. left. exists input. auto. }
  fold (parsed_input host input).
  destruct (parsed_input host input) as [[|r rs]|e] eqn:Hparse.
  - left. simpl. split; [discriminate|reflexivity].
  - destruct (load_history host w) as [history|e] eqn:Hhist.
    + right. right. exists input, (r :: rs), history.
      repeat split; auto. discriminate.
    + left. simpl. split; [discriminate|reflexivity].
  - left. simpl. split; [discriminate|reflexivity].
Qed.





(** X6.  After a run that ended with exit code 0, a second run on the
    directory it left finds the file unchanged: it ends with exit code 0,
    prints the unchanged notice and writes nothing. *)
Theorem second_run_is_skipped :
  forall (host : Host) (w : World),
    run_end (main host w) = Exit 0 ->
    exists digest,
      main host (run_world (main host w))
      = mk_run (Exit 0) (run_world (main host w)) [FileUnchanged digest].
Proof.
  intros host w Hok.
  destruct (main_cases host w)
    as [[Hfail _]|[[input [_ [_ E]]]|[input [df_new [history H]]]]].
  - contradiction.
  - rewrite E. simpl. rewrite E. eauto.
  - destruct H as (Hsel & Hch & Hparse & Hne & Hhist).
    destruct (main_processing host w Hsel Hch Hparse Hne Hhist) as [_ Ew].
    rewrite Ew. exists (get_file_hash host (content (snd input))).
    unfold main at 1.
    rewrite after_processing_selected_input, Hsel.
    assert (U : unchanged
                  (after_processing host w
                     (get_file_hash host (content (snd input)))
                     (reconcile history df_new))
                  (get_file_hash host (content (snd input))) = true).
    { unfold unchanged.
      destruct (after_processing_lookup host w
                  (get_file_hash host (content (snd input)))
                  (reconcile history df_new)) as (_ & _ & H3 & _).
      rewrite H3. simpl. unfold get_file_hash.
      rewrite strip_hex. apply String.eqb_refl. }
    rewrite U. reflexivity.
Qed.

Lemma second_run_is_skipped_witness :
  exists digest,
    main scenario_host (run_world (main scenario_host first_run_world))
    = mk_run (Exit 0) (run_world (main scenario_host first_run_world))
             [FileUnchanged digest].
Proof.
  apply (@second_run_is_skipped scenario_host first_run_world).
  reflexivity.
Defined.

(** ** [strip] *)

Lemma lstrip_head (s : string) :
  PyStr.lstrip s = EmptyString
  \/ exists c t, PyStr.lstrip s = String c t /\ PyStr.is_space c = false.
Proof.
  induction s as [|c t IH]; simpl; [auto|].
  destruct (PyStr.is_space c) eqn:E; [exact IH|]. right. eauto.
Qed.

Lemma rstrip_head (c : ascii) (t : string) :
  PyStr.is_space c = false ->
  exists t', PyStr.rstrip (String c t) = String c t'.
Proof.
  intros Hc. simpl. destruct (PyStr.rstrip t); [rewrite Hc|]; eauto.
Qed.

Lemma rstrip_idempotent (s : string) :
  PyStr.rstrip (PyStr.rstrip s) = PyStr.rstrip s.
Proof.
  induction s as [|c t IH]; [reflexivity|].
  cbn [PyStr.rstrip]. destruct (PyStr.rstrip t) as [|d t'] eqn:E.
  - destruct (PyStr.is_space c) eqn:Hc; [reflexivity|].
    simpl. rewrite Hc. reflexivity.
  - cbn [PyStr.rstrip]. cbn [PyStr.rstrip] in IH.
    destruct (PyStr.rstrip t') as [|e t''].
    + destruct (PyStr.is_space d); [discriminate|]. rewrite IH. reflexivity.
    + rewrite IH. reflexivity.
Qed.

Lemma strip_idempotent (s : string) :
  PyStr.strip (PyStr.strip s) = PyStr.strip s.
Proof.
  unfold PyStr.strip.
  destruct (lstrip_head s) as [->|[c [t [-> Hc]]]]; [reflexivity|].
  destruct (@rstrip_head c t Hc) as [t' E]. rewrite E.
  cbn [PyStr.lstrip]. rewrite Hc, <- E. apply rstrip_idempotent.
Qed.

Lemma truthy_nonempty (s : string) :
  PyStr.truthy s = true <-> s <> EmptyString.
Proof. destruct s; simpl; split; congruence. Qed.

(** ** The parser: every kind of row *)

(** What a row that is read without error does to the scan: nothing; or,
    naming a state, it sets [current_state]; or, being a column header, it
    sets [header_row]; or, being a data row with a valid terminal read in
    context, it appends the records of its fuel columns. *)
Lemma parse_row_step (host : Host) (s s' : scan) (r : row) :
  parse_row host s r = Ok s' ->
  s' = s
  \/ (exists s0,
         nth_error r 0 = Some (Text s0) /\ names_a_state r = true
         /\ PyStr.truthy (PyStr.strip s0) = true
         /\ s' = mk_scan (Some (PyStr.strip s0)) (header_row s) (data_records s))
  \/ (quiet_row r = false /\ has_terminal_literal r = true
      /\ s' = mk_scan (current_state s)
                      (Some (mk_header 0 2 (fuel_cols_of_row r)))
                      (data_records s))
  \/ (exists st h d ct term recs,
         current_state s = Some st /\ header_row s = Some h
         /\ nth_error r 0 = Some (Stamp d)
         /\ nth_error r (terminal_col h) = Some ct
         /\ terminal_of host ct = Some term /\ terminal_ok (Some term) = true
         /\ emit_fuels host st (dt_date d) term r (fuel_cols h) (data_records s)
            = Ok recs
         /\ s' = mk_scan (current_state s) (header_row s) recs).
Proof.
  unfold parse_row, getitem, names_a_state, quiet_row, has_terminal_literal.
  destruct (nth_error r 0) as [c0|] eqn:E0; [|discriminate]. cbn [bind].
  destruct (isna c0) eqn:Ena; [intros E; injection E as <-; auto|].
  destruct (is_section_header r c0) eqn:Esec.
  { destruct c0 as [|s0|d|x]; try (intros E; injection E as <-; auto).
    destruct (PyStr.mem s0 banner_lines); intros E; injection E as <-; auto.
    right. left. exists s0. rewrite Esec.
    unfold is_section_header in Esec. apply andb_true_iff in Esec.
    repeat split; auto. tauto. }
  destruct (nth_error r 2) as [c2|]; [|discriminate]. cbn [bind].
  destruct (is_terminal_header c2).
  { intros E; injection E as <-. right. right. left. auto. }
  unfold data_context.
  destruct (current_state s) as [st|] eqn:Est;
    [|intros E; injection E as <-; auto].
  destruct (header_row s) as [h|] eqn:Eh;
    [|intros E; injection E as <-; auto].
  destruct c0 as [|t|d|x]; try (intros E; injection E as <-; auto).
  destruct (PyStr.truthy st); [|intros E; injection E as <-; auto].
  destruct (nth_error r (terminal_col h)) as [ct|] eqn:Ect; [|discriminate].
  cbn [bind]. cbv zeta.
  destruct (terminal_ok (terminal_of host ct)) eqn:Eok;
    [|intros E; injection E as <-; auto].
  destruct (terminal_of host ct) as [term|] eqn:Eterm;
    [|intros E; injection E as <-; auto].
  destruct (emit_fuels host st (dt_date d) term r (fuel_cols h) (data_records s))
    as [recs|e] eqn:Ee; [|discriminate].
  cbn [bind]. intros E; injection E as <-. right. right. right.
  exists st, h, d, ct, term, recs. repeat split; auto.
Qed.

Lemma fuel_cols_of_row_trimmed (r : row) :
  Forall (fun fc => PyStr.strip (fst fc) = fst fc /\ 3 <= snd fc)
         (fuel_cols_of_row r).
Proof.
  apply Forall_forall. intros [name j] Hin. simpl.
  apply fuel_cols_of_row_In in Hin. destruct Hin as [Hj [[t [_ <-]] _]].
  split; [apply strip_idempotent|exact Hj].
Qed.

Lemma terminal_well_formed (host : Host) (ct : cell) (term : string) :
  terminal_of host ct = Some term -> terminal_ok (Some term) = true ->
  term <> EmptyString /\ term <> "nan" /\ PyStr.strip term = term.
Proof.
  unfold terminal_of, terminal_ok. destruct (isna ct); [discriminate|].
  intros E; injection E as <-. rewrite andb_true_iff, negb_true_iff.
  intros [Ht Hn]. split; [apply truthy_nonempty; exact Ht|].
  split; [apply String.eqb_neq; exact Hn|apply strip_idempotent].
Qed.

Lemma parse_row_keeps_invariant (host : Host) (s s' : scan) (r : row) :
  parse_row host s r = Ok s' ->
  scan_invariant s -> Forall well_formed_record (data_records s) ->
  scan_invariant s' /\ Forall well_formed_record (data_records s').
Proof.
  intros Hp [Hst Hhd] Hwf.
  destruct (parse_row_step _ _ _ Hp)
    as [->|[[s0 [_ [_ [Ht ->]]]]|[[_ [_ ->]]|
        [st [h [d [ct [term [recs [Est [Eh [_ [_ [Eterm [Eok [Ee ->]]]]]]]]]]]]]]]].
  - split; [split|]; assumption.
  - split; [split|]; cbn [current_state header_row data_records]; auto.
    intros st E. injection E as <-.
    split; [apply truthy_nonempty; exact Ht|apply strip_idempotent].
  - split; [split|]; cbn [current_state header_row data_records]; auto.
    intros h E. injection E as <-. cbn [date_col terminal_col fuel_cols].
    repeat split; [apply fuel_cols_of_row_NoDup|apply fuel_cols_of_row_trimmed].
  - split; [split|]; cbn [current_state header_row data_records]; auto.
    destruct (emit_fuels_records _ _ _ _ _ _ _ Ee) as [new [-> F]].
    apply Forall_app. split; [exact Hwf|].
    destruct (Hst st Est) as [Hst1 Hst2].
    destruct (Hhd h Eh) as (_ & _ & _ & Hfuels).
    destruct (terminal_well_formed _ _ Eterm Eok) as (Ht1 & Ht2 & Ht3).
    apply Forall_forall. intros rec Hrec.
    destruct (Forall2_In_r F _ Hrec) as [fc [Hfc Hof]].
    apply filter_In in Hfc. destruct Hfc as [Hfc _].
    rewrite Forall_forall in Hfuels. destruct (Hfuels fc Hfc) as [Hname _].
    unfold well_formed_record.
    destruct Hof as (-> & _ & -> & -> & _).
    repeat (split; [assumption|]). assumption.
Qed.

Lemma parse_rows_keep_invariant (host : Host) (rows : list row) :
  forall s s',
    parse_rows host s rows = Ok s' ->
    scan_invariant s -> Forall well_formed_record (data_records s) ->
    scan_invariant s' /\ Forall well_formed_record (data_records s').
Proof.
  induction rows as [|r rest IH]; simpl; intros s s' E Hinv Hwf.
  - injection E as <-. auto.
  - destruct (parse_row host s r) as [s1|e] eqn:E1; [|discriminate].
    cbn [bind] in E.
    destruct (@parse_row_keeps_invariant host s s1 r E1 Hinv Hwf)
      as [Hinv1 Hwf1].
    apply (IH _ _ E Hinv1 Hwf1).
Qed.

(** X7.  Whatever the sheet, every record the parser returns has a state
    that is a non-empty trimmed string, a terminal that is a non-empty
    trimmed string other than "nan", and a fuel type that is a trimmed
    header cell. *)
Theorem parsed_records_are_well_formed :
  forall (host : Host) (df_raw : list row) (recs : list PriceRecord),
    parse_bp_pricing host df_raw = Ok recs ->
    Forall well_formed_record recs.
Proof.
  intros host df_raw recs E. unfold parse_bp_pricing in E.
  destruct (parse_rows host scan0 df_raw) as [s|e] eqn:Es; [|discriminate].
  cbn [bind] in E. injection E as <-.
  apply (@parse_rows_keep_invariant host df_raw scan0 s Es).
  - split; intros x Hx; discriminate.
  - constructor.
Qed.

Lemma parsed_records_are_well_formed_witness :
  Forall well_formed_record
         [ eagle_farm "Unleaded 91" 189.9 (now example_host 0);
           eagle_farm "Diesel" 195.5 (now example_host 1) ].
Proof.
  apply (@parsed_records_are_well_formed example_host scenario_sheet).
  reflexivity.
Defined.

(** ** The parser: records need a state and a header *)

Lemma parse_row_without_state (host : Host) (s s1 : scan) (r : row) :
  names_a_state r = false ->
  parse_row host s r = Ok s1 ->
  current_state s = None ->
  current_state s1 = None /\ data_records s1 = data_records s.
Proof.
  intros Hno E1 Hs.
  destruct (parse_row_step _ _ _ E1)
    as [->|[[s0 [_ [Hn _]]]|[[_ [_ ->]]|[st [h [d [ct [term [recs [Est _]]]]]]]]]].
  - auto.
  - congruence.
  - auto.
  - congruence.
Qed.

Lemma parse_row_without_header (host : Host) (s s1 : scan) (r : row) :
  has_terminal_literal r = false ->
  parse_row host s r = Ok s1 ->
  header_row s = None ->
  header_row s1 = None /\ data_records s1 = data_records s.
Proof.
  intros Hno E1 Hs.
  destruct (parse_row_step _ _ _ E1)
    as [->|[[s0 [_ [_ [_ ->]]]]|[[_ [Hl _]]|[st [h [d [ct [term [recs [_ [Eh _]]]]]]]]]]].
  - auto.
  - auto.
  - congruence.
  - congruence.
Qed.

(** A row of three cells or more is read without error when no state or no
    header is active: the price cells are not looked at. *)
Lemma parse_row_out_of_context (host : Host) (s : scan) (r : row) :
  3 <= List.length r ->
  current_state s = None \/ header_row s = None ->
  exists s', parse_row host s r = Ok s'.
Proof.
  intros Hlen Hctx.
  destruct r as [|c0 [|c1 [|c2 rest]]]; simpl in Hlen; try lia.
  unfold parse_row, getitem. cbn [nth_error bind].
  destruct (isna c0); [eauto|].
  destruct (is_section_header (c0 :: c1 :: c2 :: rest) c0).
  { destruct c0; eauto. destruct (PyStr.mem s0 banner_lines); eauto. }
  destruct (is_terminal_header c2); [eauto|].
  assert (E : data_context s c0 = None).
  { unfold data_context. destruct Hctx as [->| ->]; [reflexivity|].
    destruct (current_state s); reflexivity. }
  rewrite E. eauto.
Qed.

Lemma parse_rows_without_state (host : Host) (rows : list row) :
  Forall (fun r => 3 <= List.length r) rows ->
  (forall r, In r rows -> names_a_state r = false) ->
  forall s,
    current_state s = None ->
    exists s', parse_rows host s rows = Ok s'
               /\ data_records s' = data_records s.
Proof.
  intros Hlen. induction rows as [|r rest IH]; simpl; intros Hno s Hs.
  - eauto.
  - apply Forall_cons_iff in Hlen. destruct Hlen as [Hr Hrest].
    destruct (@parse_row_out_of_context host s r Hr (or_introl Hs)) as [s1 E1].
    rewrite E1. cbn [bind].
    destruct (@parse_row_without_state host s s1 r
                (Hno r (or_introl eq_refl)) E1 Hs) as [Hs1 R1].
    destruct (IH Hrest (fun r' H => Hno r' (or_intror H)) s1 Hs1)
      as [s' [E' R']].
    exists s'. split; congruence.
Qed.

Lemma parse_rows_without_header (host : Host) (rows : list row) :
  Forall (fun r => 3 <= List.length r) rows ->
  (forall r, In r rows -> has_terminal_literal r = false) ->
  forall s,
    header_row s = None ->
    exists s', parse_rows host s rows = Ok s'
               /\ data_records s' = data_records s.
Proof.
  intros Hlen. induction rows as [|r rest IH]; simpl; intros Hno s Hs.
  - eauto.
  - apply Forall_cons_iff in Hlen. destruct Hlen as [Hr Hrest].
    destruct (@parse_row_out_of_context host s r Hr (or_intror Hs)) as [s1 E1].
    rewrite E1. cbn [bind].
    destruct (@parse_row_without_header host s s1 r
                (Hno r (or_introl eq_refl)) E1 Hs) as [Hs1 R1].
    destruct (IH Hrest (fun r' H => Hno r' (or_intror H)) s1 Hs1)
      as [s' [E' R']].
    exists s'. split; congruence.
Qed.

(** X8.  A sheet of three columns or more in which no row names a state (a
    section header that is not a banner line), or in which no row carries
    the literal "Terminal" in its third cell, is parsed without error and
    yields no record, whatever its other rows hold: data rows count only
    under an active state and an active header, and their price cells are
    not read otherwise. *)
Theorem no_state_or_no_header_no_record :
  forall (host : Host) (df_raw : list row),
    Forall (fun r => 3 <= List.length r) df_raw ->
    (forall r, In r df_raw -> names_a_state r = false)
    \/ (forall r, In r df_raw -> has_terminal_literal r = false) ->
    parse_bp_pricing host df_raw = Ok [].
Proof.
  intros host df_raw Hlen Hno. unfold parse_bp_pricing.
  destruct Hno as [Hno|Hno].
  - destruct (@parse_rows_without_state host df_raw Hlen Hno scan0 eq_refl)
      as [s [E R]].
    rewrite E. cbn [bind]. rewrite R. reflexivity.
  - destruct (@parse_rows_without_header host df_raw Hlen Hno scan0 eq_refl)
      as [s [E R]].
    rewrite E. cbn [bind]. rewrite R. reflexivity.
Qed.

(** ** The parser: frames of fewer than three columns *)

Lemma quiet_row_is_read (host : Host) (s : scan) (r : row) :
  quiet_row r = true ->
  exists s', parse_row host s r = Ok s' /\ data_records s' = data_records s.
Proof.
  unfold quiet_row, parse_row, getitem.
  destruct (nth_error r 0) as [c0|]; [|discriminate]. cbn [bind].
  destruct (isna c0); [eexists; split; reflexivity|]. cbn [orb]. intros ->.
  destruct c0; try (eexists; split; reflexivity).
  destruct (PyStr.mem s0 banner_lines); eexists; split; reflexivity.
Qed.

Lemma narrow_row_raises (host : Host) (s : scan) (r : row) :
  quiet_row r = false -> List.length r < 3 ->
  parse_row host s r
  = Raise (KeyError (match r with [] => 0 | _ => 2 end)).
Proof.
  intros Hq Hlen.
  destruct r as [|c0 [|c1 [|c2 rest]]]; simpl in Hlen; try lia;
    [reflexivity| |];
    unfold quiet_row in Hq; cbn [nth_error] in Hq;
    apply orb_false_iff in Hq; destruct Hq as [Hna Hsec];
    unfold parse_row, getitem; cbn [nth_error bind];
    rewrite Hna, Hsec; reflexivity.
Qed.

Lemma narrow_rows (host : Host) (w : nat) (rows : list row) :
  w < 3 -> Forall (fun r => List.length r = w) rows ->
  forall s,
    bind (parse_rows host s rows) (fun s' => Ok (data_records s'))
    = if forallb quiet_row rows then Ok (data_records s)
      else Raise (KeyError (match w with 0 => 0 | _ => 2 end)).
Proof.
  intros Hw Hlen. induction rows as [|r rest IH]; intros s; [reflexivity|].
  apply Forall_cons_iff in Hlen. destruct Hlen as [Hr Hrest].
  cbn [parse_rows forallb]. destruct (quiet_row r) eqn:Eq.
  - destruct (@quiet_row_is_read host s r Eq) as [s1 [E1 R1]].
    rewrite E1. cbn [bind andb]. rewrite (IH Hrest s1), R1. reflexivity.
  - rewrite (@narrow_row_raises host s r Eq) by lia. cbn [bind andb].
    destruct r; simpl in Hr; subst w; [reflexivity|].
    reflexivity.
Qed.

(** X9.  On a frame of fewer than three columns the parser either returns
    no record, when every row has an empty first cell or is a section
    header, or stops with [KeyError]: 2 for the missing third column (0 in
    a frame without columns), at the first row that is neither. *)
Theorem narrow_frame_yields_nothing_or_key_error :
  forall (host : Host) (w : nat) (df_raw : list row),
    w < 3 -> Forall (fun r => List.length r = w) df_raw ->
    parse_bp_pricing host df_raw
    = if forallb quiet_row df_raw then Ok []
      else Raise (KeyError (match w with 0 => 0 | _ => 2 end)).
Proof.
  intros host w df_raw Hw Hlen. unfold parse_bp_pricing.
  apply (@narrow_rows host w df_raw Hw Hlen scan0).
Qed.

(** ** The parser: the clock *)





(** ** The reconciler: what is kept *)






(** ** Sorted frames *)




(** X11.  On a first run (no history file) nothing is merged: the history
    written is the parsed frame rearranged, so it holds one record per
    identity tuple exactly when the sheet gave one record per identity
    tuple. *)
Theorem first_run_history_is_the_parsed_frame :
  forall df_new : list PriceRecord,
    Permutation (reconcile None df_new) df_new
    /\ List.length (reconcile None df_new) = List.length df_new
    /\ (NoDup (map identity_of (reconcile None df_new))
        <-> NoDup (map identity_of df_new)).
Proof.
  intros df_new.
  assert (P : Permutation (reconcile None df_new) df_new)
    by apply sort_values_perm.
  split; [exact P|]. split; [apply Permutation_length, P|].
  split; apply Permutation_NoDup, Permutation_map;
    [exact P|symmetry; exact P].
Qed.



(** ** The snapshot *)

Lemma latest_date_of_nonempty (df : list PriceRecord) :
  df <> [] -> exists d, latest_date df = Some d.
Proof.
  intros Hne. unfold latest_date.
  destruct (max_date (map effective_date df)) as [d|] eqn:E; [eauto|].
  exfalso. apply (@max_date_nonempty (map effective_date df)); [|exact E].
  destruct df; simpl; congruence.
Qed.

Lemma one_day_keys_distinct (d : date) (df : list PriceRecord) :
  NoDup (map identity_of df) ->
  NoDup (map snapshot_key
             (filter (fun r => date_eqb (effective_date r) d) df)).
Proof.
  induction df as [|x t IH]; simpl; [constructor|].
  intros ND. apply NoDup_cons_iff in ND. destruct ND as [Hx ND].
  destruct (date_eqb (effective_date x) d) eqn:Ex; [|auto].
  simpl. apply date_eqb_eq in Ex. constructor; [|auto].
  intros Hin. apply in_map_iff in Hin. destruct Hin as [y [Ey Hy]].
  apply filter_In in Hy. destruct Hy as [Hy Hd].
  apply date_eqb_eq in Hd. apply Hx.
  apply in_map_iff. exists y. split; [|exact Hy].
  unfold snapshot_key in Ey. unfold identity_of.
  injection Ey as E1 E2 E3. congruence.
Qed.

(** X14.  The snapshot of a non-empty frame is not empty, all its records
    bear the same date, and when the frame holds each identity tuple once
    the snapshot holds each (state, terminal, fuel_type) once. *)
Theorem snapshot_is_one_day_of_prices :
  forall df_combined : list PriceRecord,
    NoDup (map identity_of df_combined) ->
    NoDup (map snapshot_key (df_latest df_combined))
    /\ (forall a b, In a (df_latest df_combined) ->
                    In b (df_latest df_combined) ->
                    effective_date a = effective_date b)
    /\ (df_combined <> [] -> df_latest df_combined <> []).
Proof.
  intros df ND. unfold df_latest.
  destruct (latest_date df) as [d|] eqn:Ed.
  - set (day := filter (fun r => date_eqb (effective_date r) d) df).
    assert (Hday : forall r, In r (sort_values snapshot_cmp day) ->
                             In r df /\ effective_date r = d).
    { intros r Hr. apply sort_values_In, filter_In in Hr.
      rewrite date_eqb_eq in Hr. exact Hr. }
    split; [|split].
    + apply (Permutation_NoDup (l := map snapshot_key day)).
      * apply Permutation_map. symmetry. apply sort_values_perm.
      * apply one_day_keys_distinct, ND.
    + intros a b Ha Hb.
      destruct (Hday a Ha) as [_ ->]. destruct (Hday b Hb) as [_ ->].
      reflexivity.
    + intros _ Hempty.
      unfold latest_date in Ed. apply max_date_spec in Ed.
      destruct Ed as [Hin _]. apply in_map_iff in Hin.
      destruct Hin as [r [Er Hr]].
      assert (Hr' : In r (sort_values snapshot_cmp day)).
      { apply sort_values_In, filter_In. split; [exact Hr|].
        apply date_eqb_eq. exact Er. }
      rewrite Hempty in Hr'. contradiction.
  - split; [constructor|]. split; [intros a b []|].
    intros Hne. destruct (latest_date_of_nonempty Hne) as [d E]. congruence.
Qed.

(** ** The candidate workbooks *)

Lemma rev_acc_onto (s : string) :
  forall acc,
    PyStr.rev_acc s acc = (PyStr.rev_acc s EmptyString ++ acc)%string.
Proof.
  induction s as [|c t IH]; intros acc; simpl; [reflexivity|].
  rewrite (IH (String c acc)), (IH (String c EmptyString)), str_app_assoc.
  reflexivity.
Qed.

Lemma rev_acc_of_append (a b : string) :
  PyStr.rev_acc (a ++ b) EmptyString
  = (PyStr.rev_acc b EmptyString ++ PyStr.rev_acc a EmptyString)%string.
Proof.
  induction a as [|c a IH]; simpl.
  - rewrite str_app_nil_r. reflexivity.
  - rewrite (rev_acc_onto (a ++ b)), IH, str_app_assoc,
            <- (rev_acc_onto a). reflexivity.
Qed.

Lemma rev_acc_involutive (s : string) :
  PyStr.rev_acc (PyStr.rev_acc s EmptyString) EmptyString = s.
Proof.
  induction s as [|c t IH]; simpl; [reflexivity|].
  rewrite (rev_acc_onto t), rev_acc_of_append, IH. reflexivity.
Qed.

Lemma prefix_iff (a : string) :
  forall b, String.prefix a b = true <-> exists c, b = (a ++ c)%string.
Proof.
  induction a as [|x a IH]; intros b.
  - split; [simpl; eauto|]. destruct b; reflexivity.
  - destruct b as [|y b]; simpl.
    + split; [discriminate|]. intros [c E]. discriminate.
    + destruct (ascii_dec x y) as [->|Hne].
      * rewrite IH. split; intros [c E]; exists c; congruence.
      * split; [discriminate|]. intros [c E]. congruence.
Qed.

Lemma endswith_iff (s suffix : string) :
  PyStr.endswith s suffix = true <-> exists p, s = (p ++ suffix)%string.
Proof.
  unfold PyStr.endswith. rewrite prefix_iff. split.
  - intros [c E]. exists (PyStr.rev_acc c EmptyString).
    rewrite <- (rev_acc_involutive s), E, rev_acc_of_append,
            rev_acc_involutive. reflexivity.
  - intros [p ->]. exists (PyStr.rev_acc p EmptyString).
    apply rev_acc_of_append.
Qed.

(** X15.  A file of the directory is a candidate workbook exactly when its
    name ends in ".xlsx" and does not end in ".html.xlsx"; the name ".xlsx"
    alone qualifies. *)
Theorem candidate_names :
  forall name : string,
    (is_xlsx name = true
     <-> (exists p, name = (p ++ ".xlsx")%string)
         /\ ~ (exists p, name = (p ++ ".html.xlsx")%string))
    /\ is_xlsx ".xlsx" = true.
Proof.
  intros name. split; [|reflexivity].
  unfold is_xlsx. rewrite andb_true_iff, negb_true_iff, endswith_iff.
  rewrite <- (endswith_iff name ".html.xlsx").
  destruct (PyStr.endswith name ".html.xlsx"); split; intros [H1 H2];
    split; auto; congruence.
Qed.

(** ** Examples of the further properties *)

Lemma no_state_or_no_header_no_record_witness :
  parse_bp_pricing example_host stateless_sheet = Ok [].
Proof.
  apply (@no_state_or_no_header_no_record example_host stateless_sheet).
  - repeat constructor.
  - left. intros r [<-|[<-|[]]]; reflexivity.
Defined.

Lemma narrow_frame_yields_nothing_or_key_error_witness :
  parse_bp_pricing example_host narrow_frame
  = if forallb quiet_row narrow_frame then Ok []
    else Raise (KeyError 2).
Proof.
  apply (@narrow_frame_yields_nothing_or_key_error example_host 2 narrow_frame).
  - lia.
  - repeat constructor.
Defined.



Lemma snapshot_is_one_day_of_prices_witness :
  NoDup (map snapshot_key (df_latest known_history))
  /\ (forall a b, In a (df_latest known_history) ->
                  In b (df_latest known_history) ->
                  effective_date a = effective_date b)
  /\ (known_history <> [] -> df_latest known_history <> []).
Proof.
  apply (@snapshot_is_one_day_of_prices known_history).
  repeat constructor; simpl; intuition discriminate.
Defined.
